(** * notepad-tracker: a note editor that commits every save to Git

    A shallow embedding of [run.py] and the properties of its bootstrap
    ([setup_repo]), its commit helper ([run_git_commit]) and its two HTTP
    handlers ([index], [save_and_commit]).

    The program is a sequence of effects on the outside world: the file
    system below [REPO_DIR], the [git] executable, the wall clock and the
    console.  The embedding threads an explicit [World] through a small
    state-and-exception monad [Py]; Python exceptions are values of type
    [exn], and state changes made before an exception is raised persist,
    as they do in Python.

    What the world is made of:
    - the directory [REPO_DIR], its [.git] metadata and the note, which is
      the only file of the working tree;
    - whether a [git] executable can be launched, and what it does: the
      program is parameterised by the tool, and [Git.git] models the real
      one;
    - faults of the operating system (a refused or failing write or read
      of the note) and of [git commit], as data the primitives consult;
    - the clock, as the sequence of its future readings;
    - the lines printed on the console.

    The operations raise what the Python library raises for these
    conditions: [FileNotFoundError] for a missing file, directory or
    executable, [ValueError] for an argument of a command that holds a
    NUL character, [UnicodeDecodeError] for captured output that is no
    text in the encoding of the locale (UTF-8), [CalledProcessError] for
    a non-zero exit status under [check=True], and other [OSError]s for
    the faults.  A Python [str] is held as its UTF-8 encoding, and the
    string operations work on its characters.

    In the world [git] is installed or it is not, and [REPO_DIR] is a
    directory or does not exist.  What else can stand in the way of a
    launch, an executable that may not be run or a file in the place of
    the directory, is the business of the [System] the program runs on;
    the theorems that name no system are about one that refuses no
    launch.

    The page template and its renderer are parameters.  The script of the
    page is embedded in [Client], as callbacks run one at a time by the
    event loop of the browser. *)

From Stdlib Require Import String Ascii List ZArith Bool Lia.
Import ListNotations.
Local Open Scope string_scope.
Local Open Scope Z_scope.

(** ** Strings, the way the Python code uses them *)

Module PyStr.

(** A Python [str] is held as its UTF-8 encoding; [bytes] are a string
    as well. *)
Definition byte (c : ascii) : N := N_of_ascii c.

(** Every byte of [s] satisfies [p]. *)
Fixpoint all (p : ascii -> bool) (s : string) : bool :=
  match s with
  | String c s' => p c && all p s'
  | EmptyString => true
  end.

Definition is_ascii (c : ascii) : bool := (byte c <? 128)%N.

(** Printable ASCII, the space included. *)
Definition is_print (c : ascii) : bool := ((32 <=? byte c) && (byte c <? 127))%N.

(** Printable ASCII and the line feed. *)
Definition is_plain (c : ascii) : bool := is_print c || (byte c =? 10)%N.

Fixpoint rev_onto (s acc : string) : string :=
  match s with
  | String c s' => rev_onto s' (String c acc)
  | EmptyString => acc
  end.

Definition rev (s : string) : string := rev_onto s "".

(** *** Decoding

    [bytes.decode("utf-8")] with the strict error handler.  The decoder
    stops at the first sequence that encodes nothing and reports where it
    starts, where it ends and why. *)

Definition continuation (c : ascii) : bool :=
  ((128 <=? byte c) && (byte c <? 192))%N.

(** The second byte of a sequence must continue it, and must not make the
    sequence overlong ([E0], [F0]), a surrogate ([ED]) or a code point
    beyond U+10FFFF ([F4]). *)
Definition second_fits (lead second : ascii) : bool :=
  continuation second
  && (if (byte lead =? 0xE0)%N then (0xA0 <=? byte second)%N else true)
  && (if (byte lead =? 0xED)%N then (byte second <? 0xA0)%N else true)
  && (if (byte lead =? 0xF0)%N then (0x90 <=? byte second)%N else true)
  && (if (byte lead =? 0xF4)%N then (byte second <? 0x90)%N else true).

Definition invalid_start : string := "invalid start byte".
Definition invalid_continuation : string := "invalid continuation byte".
Definition unexpected_end : string := "unexpected end of data".

(** The first defect of [s], which starts at offset [pos] of the data:
    [(start, end, reason)]. *)
Fixpoint utf8_defect (pos : nat) (s : string) : option (nat * nat * string) :=
  match s with
  | EmptyString => None
  | String a rest =>
      if is_ascii a then utf8_defect (S pos) rest
      else if ((byte a <? 0xC2) || (0xF4 <? byte a))%N
      then Some (pos, S pos, invalid_start)
      else
        match rest with
        | EmptyString => Some (pos, S pos, unexpected_end)
        | String b rest2 =>
            if negb (second_fits a b)
            then Some (pos, S pos, invalid_continuation)
            else if (byte a <? 0xE0)%N then utf8_defect (2 + pos) rest2
            else
              match rest2 with
              | EmptyString => Some (pos, (2 + pos)%nat, unexpected_end)
              | String c rest3 =>
                  if negb (continuation c)
                  then Some (pos, (2 + pos)%nat, invalid_continuation)
                  else if (byte a <? 0xF0)%N then utf8_defect (3 + pos) rest3
                  else
                    match rest3 with
                    | EmptyString => Some (pos, (3 + pos)%nat, unexpected_end)
                    | String d rest4 =>
                        if negb (continuation d)
                        then Some (pos, (3 + pos)%nat, invalid_continuation)
                        else utf8_defect (4 + pos) rest4
                    end
              end
        end
  end.

(** [s] is the encoding of a text. *)
Definition utf8 (s : string) : bool :=
  match utf8_defect 0 s with
  | None => true
  | Some _ => false
  end.

(** *** Characters

    The characters of a text, each as the bytes that encode it: the first
    byte tells the length of the sequence. *)
Fixpoint chars (s : string) : list string :=
  match s with
  | EmptyString => []
  | String a rest =>
      if (byte a <? 0xC0)%N then String a "" :: chars rest
      else
        match rest with
        | EmptyString => [String a ""]
        | String b rest2 =>
            if (byte a <? 0xE0)%N then String a (String b "") :: chars rest2
            else
              match rest2 with
              | EmptyString => [String a (String b "")]
              | String c rest3 =>
                  if (byte a <? 0xF0)%N
                  then String a (String b (String c "")) :: chars rest3
                  else
                    match rest3 with
                    | EmptyString => [String a (String b (String c ""))]
                    | String d rest4 =>
                        String a (String b (String c (String d ""))) :: chars rest4
                    end
              end
        end
  end.

Definition payload (c : ascii) : N := N.land (byte c) 0x3F.

(** The code point a character encodes; U+FFFD for a byte that is no
    character. *)
Definition code_point (ch : string) : N :=
  match ch with
  | String a EmptyString => if is_ascii a then byte a else 0xFFFD
  | String a (String b EmptyString) =>
      N.lor (N.shiftl (N.land (byte a) 0x1F) 6) (payload b)
  | String a (String b (String c EmptyString)) =>
      N.lor (N.shiftl (N.land (byte a) 0x0F) 12)
        (N.lor (N.shiftl (payload b) 6) (payload c))
  | String a (String b (String c (String d EmptyString))) =>
      N.lor (N.shiftl (N.land (byte a) 0x07) 18)
        (N.lor (N.shiftl (payload b) 12)
           (N.lor (N.shiftl (payload c) 6) (payload d)))
  | _ => 0xFFFD
  end.

(** [str.isspace] of one character: the white space of Unicode. *)
Definition isspace (cp : N) : bool :=
  ((0x09 <=? cp) && (cp <=? 0x0D) || (0x1C <=? cp) && (cp <=? 0x20)
   || (cp =? 0x85) || (cp =? 0xA0) || (cp =? 0x1680)
   || (0x2000 <=? cp) && (cp <=? 0x200A)
   || (cp =? 0x2028) || (cp =? 0x2029) || (cp =? 0x202F)
   || (cp =? 0x205F) || (cp =? 0x3000))%N.

Fixpoint lstrip_chars (l : list string) : list string :=
  match l with
  | ch :: rest => if isspace (code_point ch) then lstrip_chars rest else l
  | [] => []
  end.

(** [s.strip()] *)
Definition strip (s : string) : string :=
  String.concat ""
    (List.rev (lstrip_chars (List.rev (lstrip_chars (chars s))))).

(** [needle in hay] on strings. *)
Fixpoint contains (needle hay : string) : bool :=
  String.prefix needle hay
  || match hay with
     | String _ hay' => contains needle hay'
     | EmptyString => false
     end.

(** [c] does not occur in [s]. *)
Fixpoint lacks (c : ascii) (s : string) : bool :=
  match s with
  | String d s' => negb (Ascii.eqb c d) && lacks c s'
  | EmptyString => true
  end.

Definition digit_char (d : Z) : ascii := ascii_of_nat (48 + Z.to_nat d).

Definition is_digit (c : ascii) : bool :=
  let n := N_of_ascii c in ((48 <=? n) && (n <=? 57))%N.

(** Decimal digits of a non-negative integer, most significant first. *)
Fixpoint decimal_digits (fuel : nat) (n : Z) (acc : string) : string :=
  match fuel with
  | O => acc
  | S fuel' =>
      let acc' := String (digit_char (n mod 10)) acc in
      if n / 10 =? 0 then acc' else decimal_digits fuel' (n / 10) acc'
  end.

(** [str(n)] / [%d]: a number below [2^k] has at most [k] digits. *)
Definition decimal (n : Z) : string :=
  if n <? 0
  then String "-" (decimal_digits (S (Z.to_nat (Z.log2 (- n)))) (- n) "")
  else decimal_digits (S (Z.to_nat (Z.log2 n))) n "".

(** [%02d] for a non-negative field. *)
Definition pad2 (n : Z) : string :=
  if n <? 10 then String "0" (decimal n) else decimal n.

(** [%02x] of a byte. *)
Definition hex_digit (n : N) : ascii :=
  nth (N.to_nat n)
    ["0"; "1"; "2"; "3"; "4"; "5"; "6"; "7"; "8"; "9";
     "a"; "b"; "c"; "d"; "e"; "f"]%char "0"%char.

Definition hex2 (c : ascii) : string :=
  String (hex_digit (byte c / 16)) (String (hex_digit (byte c mod 16)) "").

Fixpoint join (sep : string) (l : list string) : string :=
  match l with
  | [] => ""
  | [x] => x
  | x :: rest => x ++ sep ++ join sep rest
  end.

(** [repr] of a list of strings that hold no quote or escape, as in
    ['['git', 'init']']. *)
Definition repr_list (l : list string) : string :=
  "[" ++ join ", " (map (fun s => "'" ++ s ++ "'") l) ++ "]".

(** Text-mode reading translates every line ending to a line feed
    ([open(..., "r")] with the default [newline=None]). *)
Fixpoint universal_newlines (s : string) : string :=
  match s with
  | String "013" rest =>
      String "010"
        match rest with
        | String "010" rest' => universal_newlines rest'
        | _ => universal_newlines rest
        end
  | String c rest => String c (universal_newlines rest)
  | EmptyString => EmptyString
  end.

End PyStr.

(** ** The clock: [time.strftime] *)

Record struct_time := mk_time {
  tm_year : Z; tm_mon : Z; tm_mday : Z;
  tm_hour : Z; tm_min : Z; tm_sec : Z
}.

(** What [time.localtime()] can return, for years written with four
    digits. *)
Definition valid_time (t : struct_time) : Prop :=
  1000 <= tm_year t <= 9999 /\ 1 <= tm_mon t <= 12 /\ 1 <= tm_mday t <= 31 /\
  0 <= tm_hour t <= 23 /\ 0 <= tm_min t <= 59 /\ 0 <= tm_sec t <= 61.

(** One conversion specification.  Only the six the program uses are
    interpreted; any other is left in place. *)
Definition directive (d : ascii) (t : struct_time) : string :=
  match d with
  | "Y"%char => PyStr.decimal (tm_year t)
  | "m"%char => PyStr.pad2 (tm_mon t)
  | "d"%char => PyStr.pad2 (tm_mday t)
  | "H"%char => PyStr.pad2 (tm_hour t)
  | "M"%char => PyStr.pad2 (tm_min t)
  | "S"%char => PyStr.pad2 (tm_sec t)
  | _ => String "%" (String d "")
  end.

Fixpoint strftime (fmt : string) (t : struct_time) : string :=
  match fmt with
  | String "%" (String d rest) => directive d t ++ strftime rest t
  | String c rest => String c (strftime rest t)
  | EmptyString => EmptyString
  end.

(** A string of the shape [DDDD-DD-DD DD:DD:DD]. *)
Definition is_timestamp (s : string) : bool :=
  match list_ascii_of_string s with
  | [y1; y2; y3; y4; a; m1; m2; b; d1; d2; sp; h1; h2; c; mi1; mi2; e; s1; s2] =>
      forallb PyStr.is_digit [y1; y2; y3; y4; m1; m2; d1; d2; h1; h2; mi1; mi2; s1; s2]
      && Ascii.eqb a "-" && Ascii.eqb b "-" && Ascii.eqb sp " "
      && Ascii.eqb c ":" && Ascii.eqb e ":"
  | _ => false
  end.

(** A string of the shape [DD:DD:DD]. *)
Definition is_clock_time (s : string) : bool :=
  match list_ascii_of_string s with
  | [h1; h2; c; mi1; mi2; e; s1; s2] =>
      forallb PyStr.is_digit [h1; h2; mi1; mi2; s1; s2]
      && Ascii.eqb c ":" && Ascii.eqb e ":"
  | _ => false
  end.

(** ** The outside world *)

(** A commit: its message and the snapshot it records.  The working tree
    of the repository holds one tracked file, the note, so a snapshot is
    the note's contents, or [None] when the file is absent. *)
Record Commit := mk_commit {
  commit_message : string;
  commit_tree : option string
}.

(** What lives under [.git]: the staging area and the history, newest
    commit first. *)
Record GitRepo := mk_repo {
  staged : option string;
  log : list Commit
}.

(** The directory [REPO_DIR] when it exists. *)
Record RepoDir := mk_dir {
  dot_git : option GitRepo;
  note_file : option string
}.

(** Why writing the note can fail: [open] is refused and the file is
    untouched, or [open] has truncated the file and the write itself
    fails. *)
Inductive write_fault :=
| OpenFails (detail : string)
| WriteFails (detail : string).

Record World := mk_world {
  git_installed : bool;                 (* a [git] executable is on the PATH *)
  fs : option RepoDir;                  (* the directory [REPO_DIR] *)
  note_write_fault : option write_fault;
  note_read_fault : option string;      (* reading the note is refused *)
  commit_fault : option string;         (* [git commit] dies with this text *)
  clock : nat -> struct_time;           (* successive readings of the clock *)
  ticks : nat;                          (* readings taken so far *)
  console : list string                 (* lines printed, oldest first *)
}.

Definition set_fs (d : option RepoDir) (w : World) : World :=
  mk_world (git_installed w) d (note_write_fault w) (note_read_fault w)
           (commit_fault w) (clock w) (ticks w) (console w).

Definition set_ticks (n : nat) (w : World) : World :=
  mk_world (git_installed w) (fs w) (note_write_fault w) (note_read_fault w)
           (commit_fault w) (clock w) n (console w).

Definition set_console (l : list string) (w : World) : World :=
  mk_world (git_installed w) (fs w) (note_write_fault w) (note_read_fault w)
           (commit_fault w) (clock w) (ticks w) l.

Definition set_note (c : option string) (w : World) : World :=
  match fs w with
  | Some d => set_fs (Some (mk_dir (dot_git d) c)) w
  | None => w
  end.

Definition set_repo (r : option GitRepo) (w : World) : World :=
  match fs w with
  | Some d => set_fs (Some (mk_dir r (note_file d))) w
  | None => w
  end.

(** The note on disk, the repository metadata and the commit history. *)
Definition note (w : World) : option string :=
  match fs w with Some d => note_file d | None => None end.

Definition repo (w : World) : option GitRepo :=
  match fs w with Some d => dot_git d | None => None end.

Definition history (w : World) : list Commit :=
  match repo w with Some r => log r | None => [] end.

(** The snapshot of the last commit; the empty tree before any commit. *)
Definition head_tree (r : GitRepo) : option string :=
  match log r with c :: _ => commit_tree c | [] => None end.

Definition last_committed (w : World) : option string :=
  match repo w with Some r => head_tree r | None => None end.

(** ** Exceptions and the result of a child process *)

Record CompletedProcess := mk_completed {
  returncode : Z;
  stdout : string;
  stderr : string
}.

Inductive exn :=
| FileNotFoundError (msg : string)
| CalledProcessError (rc : Z) (cmd : list string) (out err : string)
| OSError (msg : string)               (* any other [Exception] of the I/O layer *)
| ValueError (msg : string)
| UnicodeDecodeError (encoding object : string) (start stop : nat) (reason : string)
| SystemExit (code : Z).

(** [except Exception] catches everything but [SystemExit]. *)
Definition is_Exception (e : exn) : bool :=
  match e with SystemExit _ => false | _ => true end.

(** Names of [signal.Signals] on Linux. *)
Definition signal_name (n : Z) : option string :=
  nth_error
    ["SIGHUP"; "SIGINT"; "SIGQUIT"; "SIGILL"; "SIGTRAP"; "SIGABRT"; "SIGBUS";
     "SIGFPE"; "SIGKILL"; "SIGUSR1"; "SIGSEGV"; "SIGUSR2"; "SIGPIPE";
     "SIGALRM"; "SIGTERM"; "SIGSTKFLT"; "SIGCHLD"; "SIGCONT"; "SIGSTOP";
     "SIGTSTP"; "SIGTTIN"; "SIGTTOU"; "SIGURG"; "SIGXCPU"; "SIGXFSZ";
     "SIGVTALRM"; "SIGPROF"; "SIGWINCH"; "SIGIO"; "SIGPWR"; "SIGSYS";
     ""; ""; "SIGRTMIN"]
    (Z.to_nat (n - 1)).

(** [str(e)], which is what [f"{e}"] interpolates. *)
Definition str_exn (e : exn) : string :=
  match e with
  | FileNotFoundError msg => msg
  | OSError msg => msg
  | ValueError msg => msg
  | UnicodeDecodeError encoding object start stop reason =>
      let codec := "'" ++ encoding ++ "' codec can't decode " in
      match String.get start object with
      | Some c =>
          if (stop =? S start)%nat
          then codec ++ "byte 0x" ++ PyStr.hex2 c ++ " in position "
                     ++ PyStr.decimal (Z.of_nat start) ++ ": " ++ reason
          else codec ++ "bytes in position " ++ PyStr.decimal (Z.of_nat start)
                     ++ "-" ++ PyStr.decimal (Z.of_nat stop - 1) ++ ": " ++ reason
      | None =>
          codec ++ "bytes in position " ++ PyStr.decimal (Z.of_nat start)
                ++ "-" ++ PyStr.decimal (Z.of_nat stop - 1) ++ ": " ++ reason
      end
  | SystemExit code => PyStr.decimal code
  | CalledProcessError rc cmd _ _ =>
      let command := "Command '" ++ PyStr.repr_list cmd ++ "'" in
      if rc <? 0 then
        match (if - rc =? 64 then Some "SIGRTMAX" else signal_name (- rc)) with
        | Some (String c name) =>
            command ++ " died with <Signals." ++ String c name ++ ": "
                    ++ PyStr.decimal (- rc) ++ ">."
        | _ => command ++ " died with unknown signal " ++ PyStr.decimal (- rc) ++ "."
        end
      else command ++ " returned non-zero exit status " ++ PyStr.decimal rc ++ "."
  end.

(** Where the streams of a child process go. *)
Inductive redirect :=
| DEVNULL        (* [stdout=subprocess.DEVNULL, stderr=subprocess.DEVNULL] *)
| CAPTURE_TEXT.  (* [capture_output=True, text=True] *)

(** What the parent makes of the bytes a child wrote to a captured
    stream: [data.decode("utf-8")], then every [\r\n] and [\r] turned
    into [\n]. *)
Definition decode (data : string) : exn + string :=
  match PyStr.utf8_defect 0 data with
  | Some (start, stop, reason) =>
      inl (UnicodeDecodeError "utf-8" data start stop reason)
  | None => inr (PyStr.universal_newlines data)
  end.

(** [Popen.communicate]: what the parent gets of the two streams.  A
    stream sent to [DEVNULL] yields nothing; captured streams are decoded,
    standard output first. *)
Definition communicate (streams : redirect) (child : CompletedProcess)
  : exn + CompletedProcess :=
  match streams with
  | DEVNULL => inr (mk_completed (returncode child) "" "")
  | CAPTURE_TEXT =>
      match decode (stdout child) with
      | inl e => inl e
      | inr out =>
          match decode (stderr child) with
          | inl e => inl e
          | inr err => inr (mk_completed (returncode child) out err)
          end
      end
  end.

(** ** The monad of Python statements *)

Inductive Outcome (A : Type) :=
| Return (a : A)
| Raise (e : exn).
Arguments Return {A} a.
Arguments Raise {A} e.

Definition Py (A : Type) : Type := World -> Outcome A * World.

Definition ret {A} (a : A) : Py A := fun w => (Return a, w).

Definition raise {A} (e : exn) : Py A := fun w => (Raise e, w).

Definition bind {A B} (c : Py A) (k : A -> Py B) : Py B :=
  fun w =>
    match c w with
    | (Return a, w') => k a w'
    | (Raise e, w') => (Raise e, w')
    end.

(** [try: c  except ...: handler]: the handler chooses the clause by the
    exception; [None] lets it propagate. *)
Definition try_except {A} (c : Py A) (handler : exn -> option (Py A)) : Py A :=
  fun w =>
    match c w with
    | (Return a, w') => (Return a, w')
    | (Raise e, w') =>
        match handler e with
        | Some k => k w'
        | None => (Raise e, w')
        end
    end.

Declare Scope py_scope.
Delimit Scope py_scope with py.
Notation "x <- c ;; k" := (bind c (fun x => k))
  (at level 100, c at next level, right associativity) : py_scope.
Notation "c ;; k" := (bind c (fun _ => k))
  (at level 100, right associativity) : py_scope.
Local Open Scope py_scope.

(** ** Constants of the program *)

(** [os.path.join] on POSIX, for two components. *)
Definition os_path_join (a b : string) : string :=
  if String.prefix "/" b then b
  else if (a =? "")%string || String.prefix "/" (PyStr.rev a) then a ++ b
  else a ++ "/" ++ b.

Definition REPO_DIR : string := "notes_repo".
Definition NOTE_FILENAME : string := "my_first_note.md".
Definition NOTE_PATH : string := os_path_join REPO_DIR NOTE_FILENAME.

Definition WELCOME : string :=
  "# Welcome to your Version-Controlled Notebook!" ++ String "010" (String "010"
  "Start typing here. Changes will be automatically committed to Git.").

(** ** Primitive effects *)

(** The file system of the model is the directory [REPO_DIR] with its
    [.git] metadata and the note; no other path exists in it. *)
Definition os_path_exists (p : string) : Py bool :=
  fun w =>
    (Return
       (if (p =? REPO_DIR)%string then
          match fs w with Some _ => true | None => false end
        else if (p =? os_path_join REPO_DIR ".git")%string then
          match repo w with Some _ => true | None => false end
        else if (p =? NOTE_PATH)%string then
          match note w with Some _ => true | None => false end
        else false),
     w).

Definition no_such_file (p : string) : exn :=
  FileNotFoundError ("[Errno 2] No such file or directory: '" ++ p ++ "'").

Definition os_makedirs (p : string) : Py unit :=
  fun w =>
    if (p =? REPO_DIR)%string then
      match fs w with
      | None => (Return tt, set_fs (Some (mk_dir None None)) w)
      | Some _ => (Raise (OSError ("[Errno 17] File exists: '" ++ p ++ "'")), w)
      end
    else (Raise (OSError ("[Errno 13] Permission denied: '" ++ p ++ "'")), w).

(** [with open(p, "w", encoding="utf-8") as f: f.write(content)] *)
Definition write_file (p content : string) : Py unit :=
  fun w =>
    if (p =? NOTE_PATH)%string then
      match note_write_fault w, fs w with
      | Some (OpenFails detail), _ => (Raise (OSError detail), w)
      | _, None => (Raise (no_such_file p), w)
      | Some (WriteFails detail), Some _ =>
          (Raise (OSError detail), set_note (Some "") w)
      | None, Some _ => (Return tt, set_note (Some content) w)
      end
    else (Raise (OSError ("[Errno 13] Permission denied: '" ++ p ++ "'")), w).

(** [with open(p, "r", encoding="utf-8") as f: content = f.read()] *)
Definition read_file (p : string) : Py string :=
  fun w =>
    if (p =? NOTE_PATH)%string then
      match note_read_fault w, note w with
      | Some detail, _ => (Raise (OSError detail), w)
      | None, None => (Raise (no_such_file p), w)
      | None, Some c => (Return (PyStr.universal_newlines c), w)
      end
    else (Raise (no_such_file p), w).

Definition print (line : string) : Py unit :=
  fun w => (Return tt, set_console (console w ++ [line]) w).

(** [time.strftime(fmt)]: formats the next reading of the local clock. *)
Definition time_strftime (fmt : string) : Py string :=
  fun w => (Return (strftime fmt (clock w (ticks w))), set_ticks (S (ticks w)) w).

Definition exit {A} (code : Z) : Py A := raise (SystemExit code).

(** The form of a POST request: fields in order, the first one of a name
    wins ([request.form.get(key, default)]). *)
Definition Form := list (string * string).

Fixpoint form_get (key default : string) (form : Form) : string :=
  match form with
  | (k, v) :: rest => if (k =? key)%string then v else form_get key default rest
  | [] => default
  end.


(** The dictionary a handler returns, which Flask sends as JSON. *)
Record Response := mk_response {
  status : string;
  message : string
}.

Inductive Process :=
| Serving
| Exited (code : Z).

Inductive Request :=
| GET_index
| POST_save (form : Form).

Inductive Reply :=
| Html (body : string)
| Json (r : Response)
| InternalServerError (e : exn).

(** ** The operating system

    A program that is there, to be run in a directory that is there, may
    still not be launched: the file of the program may not be executed
    or the directory may not be entered ([PermissionError]), what stands
    in the place of the directory is a file ([NotADirectoryError]), the
    arguments are longer than the system takes or no further process can
    be made (other [OSError]s).  [refuses args cwd w] is the text of the
    [OSError] then. *)
Class System := {
  refuses : list string -> string -> World -> option string
}.

(** A system that lets every program that is there be launched.  It is
    the one meant wherever none is named. *)
#[export] Instance willing : System := {| refuses := fun _ _ _ => None |}.

(** ** The program *)

Section Program.

Context {system : System}.

(** What the installed [git] does with an argument vector: its exit
    status and output, and its effect on the world.  The program is
    written against any such tool; [Git.git] below is the real one. *)
Variable tool : list string -> World -> CompletedProcess * World.

(** Jinja's renderer and the page template, which the handlers only
    pass along. *)
Variable render_template_string : string -> list (string * string) -> string.
Variable HTML_TEMPLATE : string.

(** [subprocess.run(args, cwd=cwd, check=check, ...)] with the two
    streams of the child sent to [DEVNULL], or captured and read as text
    ([capture_output=True, text=True]).  In the order of the library:
    - the arguments are text; one with a NUL character cannot be handed
      to the system: [ValueError], before anything is launched;
    - launching fails with [FileNotFoundError] when the working directory
      or the executable is missing, and with another [OSError] when the
      system refuses it;
    - captured output is decoded with the encoding of the locale, [utf-8],
      standard output first, and its line endings are translated; bytes
      that are no text raise [UnicodeDecodeError], after the child has
      run;
    - with [check], a non-zero exit status becomes [CalledProcessError]. *)
Definition subprocess_run (args : list string) (cwd : string) (check : bool)
           (streams : redirect) : Py CompletedProcess :=
  fun w =>
    if negb (forallb (PyStr.lacks "000") args)
    then (Raise (ValueError "embedded null byte"), w)
    else
      match (if (cwd =? REPO_DIR)%string then fs w else None) with
      | None => (Raise (no_such_file cwd), w)
      | Some _ =>
          match refuses args cwd w with
          | Some detail => (Raise (OSError detail), w)
          | None =>
              if git_installed w then
                let (child, w') := tool args w in
                match communicate streams child with
                | inl e => (Raise e, w')
                | inr result =>
                    if check && negb (returncode result =? 0)
                    then (Raise (CalledProcessError (returncode result) args
                                   (stdout result) (stderr result)), w')
                    else (Return result, w')
                end
              else (Raise (no_such_file (hd "" args)), w)
          end
      end.

Definition run_git_commit (message : string) : Py string :=
  try_except
    (subprocess_run ["git"; "add"; "."] REPO_DIR true CAPTURE_TEXT ;;
     result <- subprocess_run ["git"; "commit"; "-m"; message] REPO_DIR false
                 CAPTURE_TEXT ;;
     if returncode result =? 0 then
       if PyStr.contains "nothing to commit" (stdout result) then
         at_time <- time_strftime "%H:%M:%S" ;;
         ret ("No changes detected (Autosave attempted at " ++ at_time ++ ").")
       else ret ("Change committed successfully! (" ++ message ++ ")")
     else ret ("Git Commit Failed: " ++ PyStr.strip (stderr result)))
    (fun e =>
       match e with
       | CalledProcessError _ _ _ err =>
           Some (ret ("System error during Git operation: " ++ err))
       | FileNotFoundError _ =>
           Some (ret "System error: Git executable not found.")
       | _ => None
       end).

(** The two [return False] of the handlers of [git init] are the value
    [false] of [initialised]. *)
Definition setup_repo : Py bool :=
  dir_exists <- os_path_exists REPO_DIR ;;
  (if negb dir_exists
   then os_makedirs REPO_DIR ;; print ("Created directory: " ++ REPO_DIR)
   else ret tt) ;;
  let git_init_path := os_path_join REPO_DIR ".git" in
  git_exists <- os_path_exists git_init_path ;;
  initialised <-
    (if negb git_exists then
       try_except
         (subprocess_run ["git"; "init"] REPO_DIR true DEVNULL ;;
          print ("Initialized Git repository in " ++ REPO_DIR) ;;
          ret true)
         (fun e =>
            match e with
            | CalledProcessError _ _ _ _ =>
                Some (print ("Error initializing Git: " ++ str_exn e) ;; ret false)
            | FileNotFoundError _ =>
                Some (print "Error: Git command not found. Please ensure Git is installed and in your system PATH." ;;
                      ret false)
            | _ => None
            end)
     else ret true) ;;
  if negb initialised then ret false
  else
    note_exists <- os_path_exists NOTE_PATH ;;
    (if negb note_exists
     then write_file NOTE_PATH WELCOME ;;
          run_git_commit "Initial setup of the notebook file." ;;
          ret tt
     else ret tt) ;;
    ret true.

(** The statements the module runs when it is loaded and then, as the
    main program, up to [app.run]. *)
Definition module_body : Py unit :=
  ok <- setup_repo ;;
  (if negb ok
   then print "Application failed to set up the Git repository. Exiting." ;;
        exit 1
   else ret tt) ;;
  print (String "010" "--- Note Taker App Ready ---") ;;
  print ("Notes are stored in the '" ++ REPO_DIR ++ "' directory.").

(** The process after start-up: serving requests, or gone with an exit
    status (1 for an exception nobody caught). *)
Definition start (w : World) : Process * World :=
  match module_body w with
  | (Return _, w') => (Serving, w')
  | (Raise (SystemExit code), w') => (Exited code, w')
  | (Raise _, w') => (Exited 1, w')
  end.

Definition index : Py string :=
  content <-
    try_except (read_file NOTE_PATH)
      (fun e =>
         if is_Exception e
         then Some (ret ("Error loading file: " ++ str_exn e))
         else None) ;;
  ret (render_template_string HTML_TEMPLATE [("note_content", content)]).

(** The [return] inside the handler of the write is the value [Some] of
    [failed]. *)
Definition save_and_commit (form : Form) : Py Response :=
  let new_content := form_get "content" "" form in
  timestamp <- time_strftime "%Y-%m-%d %H:%M:%S" ;;
  let commit_message := "Autosave: " ++ timestamp in
  failed <-
    try_except (write_file NOTE_PATH new_content ;; ret None)
      (fun e =>
         if is_Exception e
         then Some (ret (Some (mk_response "error"
                                 ("File write failed: " ++ str_exn e))))
         else None) ;;
  match failed with
  | Some response => ret response
  | None =>
      commit_status <- run_git_commit commit_message ;;
      ret (mk_response "success" commit_status)
  end.

(** Routing, and a session of requests served one after the other. *)
Definition handle (req : Request) (w : World) : Reply * World :=
  match req with
  | GET_index =>
      match index w with
      | (Return body, w') => (Html body, w')
      | (Raise e, w') => (InternalServerError e, w')
      end
  | POST_save form =>
      match save_and_commit form w with
      | (Return r, w') => (Json r, w')
      | (Raise e, w') => (InternalServerError e, w')
      end
  end.

Fixpoint serve (reqs : list Request) (w : World) : list Reply * World :=
  match reqs with
  | [] => ([], w)
  | req :: rest =>
      let (reply, w') := handle req w in
      let (replies, w'') := serve rest w' in
      (reply :: replies, w'')
  end.

End Program.

(** ** The real tool

    What the three [git] commands the program issues do, as documented in
    git-init(1), git-add(1) and git-commit(1), on a repository whose
    working tree holds the note alone, which sits in no enclosing
    repository and has no hooks.  In particular [git commit] exits with
    status 1 when the staging area equals the last commit, and prints the
    state of the branch on its standard output.  The arguments are text,
    as a Python program passes them, and so is what [git] prints. *)

Module Git.

Definition NL : string := String "010" "".

Definition succeeded (out : string) : CompletedProcess := mk_completed 0 out "".

Definition not_a_repository : CompletedProcess :=
  mk_completed 128 ""
    ("fatal: not a git repository (or any of the parent directories): .git" ++ NL).

Definition same_tree (a b : option string) : bool :=
  match a, b with
  | Some x, Some y => (x =? y)%string
  | None, None => true
  | _, _ => false
  end.

(** [git init] *)
Definition init (w : World) : CompletedProcess * World :=
  match repo w with
  | Some _ => (succeeded ("Reinitialized existing Git repository" ++ NL), w)
  | None =>
      (succeeded ("Initialized empty Git repository" ++ NL),
       set_repo (Some (mk_repo None [])) w)
  end.

(** [git add .]: the staging area becomes the working tree. *)
Definition add_all (w : World) : CompletedProcess * World :=
  match repo w with
  | Some r => (succeeded "", set_repo (Some (mk_repo (note w) (log r))) w)
  | None => (not_a_repository, w)
  end.

Definition nothing_to_commit (r : GitRepo) : string :=
  match log r with
  | [] =>
      "On branch master" ++ NL ++ NL ++ "Initial commit" ++ NL ++ NL
      ++ "nothing to commit (create/copy files and use "
      ++ String "034" "git add" ++ String "034" " to track)" ++ NL
  | _ :: _ =>
      "On branch master" ++ NL ++ "nothing to commit, working tree clean" ++ NL
  end.

(** White space for [git]: space, tab, line feed and carriage return. *)
Definition isspace (c : ascii) : bool :=
  Ascii.eqb c " " || Ascii.eqb c "009" || Ascii.eqb c "010" || Ascii.eqb c "013".

(** The lines of a message. *)
Fixpoint lines (s : string) : list string :=
  match s with
  | EmptyString => [""]
  | String c rest =>
      match lines rest with
      | line :: others =>
          if Ascii.eqb c "010" then "" :: line :: others
          else String c line :: others
      | [] => [String c ""]
      end
  end.

(** A line without the white space at its end. *)
Fixpoint rstrip (s : string) : string :=
  match s with
  | EmptyString => EmptyString
  | String c rest =>
      match rstrip rest with
      | EmptyString => if isspace c then EmptyString else String c EmptyString
      | String d kept => String c (String d kept)
      end
  end.

(** The lines of the message as [git] tidies it up before it commits:
    no white space at the end of a line. *)
Definition tidy_lines (msg : string) : list string := map rstrip (lines msg).

Definition is_empty (line : string) : bool := (line =? "")%string.

(** [git] refuses a message that is empty once tidied up, lines of
    [Signed-off-by: ] not counting. *)
Definition blank (msg : string) : bool :=
  forallb (fun line => is_empty line || String.prefix "Signed-off-by: " line)
    (tidy_lines msg).

Fixpoint skip_empty (l : list string) : list string :=
  match l with
  | line :: rest => if is_empty line then skip_empty rest else l
  | [] => []
  end.

Fixpoint paragraph (l : list string) : list string :=
  match l with
  | line :: rest => if is_empty line then [] else line :: paragraph rest
  | [] => []
  end.

(** The subject of a commit: the lines of the first paragraph of its
    message, joined by a space. *)
Definition subject (msg : string) : string :=
  PyStr.join " " (paragraph (skip_empty (tidy_lines msg))).

(** The summary of a new commit: the branch and the subject, then the
    statistics.  The abbreviated hash after the branch name and the counts
    of inserted and deleted lines are left out. *)
Definition summary (r : GitRepo) (msg : string) : string :=
  "[master" ++ match log r with [] => " (root-commit)" | _ :: _ => "" end
  ++ "] " ++ subject msg ++ NL ++ " 1 file changed" ++ NL.

(** What [git] prints is text: of a diagnostic that is none, the ASCII
    part is kept. *)
Fixpoint ascii_part (s : string) : string :=
  match s with
  | String c rest =>
      if PyStr.is_ascii c then String c (ascii_part rest) else ascii_part rest
  | EmptyString => EmptyString
  end.

Definition as_text (detail : string) : string :=
  if PyStr.utf8 detail then detail else ascii_part detail.

(** [git commit -m msg].  The commit records the message as it was
    given. *)
Definition commit (msg : string) (w : World) : CompletedProcess * World :=
  match repo w with
  | None => (not_a_repository, w)
  | Some r =>
      match commit_fault w with
      | Some detail => (mk_completed 128 "" (as_text detail), w)
      | None =>
          if same_tree (staged r) (head_tree r)
          then (mk_completed 1 (nothing_to_commit r) "", w)
          else if blank msg
          then (mk_completed 1 ""
                  ("Aborting commit due to empty commit message." ++ NL), w)
          else (succeeded (summary r msg),
                set_repo (Some (mk_repo (staged r)
                                  (mk_commit msg (staged r) :: log r))) w)
      end
  end.

Definition usage : CompletedProcess :=
  mk_completed 129 "" ("usage: git [-v | --version] [-h | --help] <command> [<args>]" ++ NL).

Definition git (args : list string) (w : World) : CompletedProcess * World :=
  match args with
  | ["git"; "init"] => init w
  | ["git"; "add"; "."] => add_all w
  | ["git"; "commit"; "-m"; msg] => commit msg w
  | _ => (usage, w)
  end.

End Git.

(** ** Worlds of interest *)

(** Directory, metadata and note are all in place. *)
Definition bootstrapped (w : World) : bool :=
  match fs w with
  | Some (mk_dir (Some _) (Some _)) => true
  | _ => false
  end.

(** Nothing stands in the way of writing the note and committing it. *)
Definition healthy (w : World) : bool :=
  git_installed w
  && match note_write_fault w with None => true | Some _ => false end
  && match commit_fault w with None => true | Some _ => false end.

(** An empty working directory on a machine with [git], at 09:05:07 on
    7 March 2024, the clock moving on one second per reading. *)
Definition fresh_world : World :=
  mk_world true None None None None
    (fun n => mk_time 2024 3 7 9 5 (7 + Z.of_nat n)) 0 [].

(** A renderer that shows the note and nothing else. *)
Definition bare_render (template : string) (context : list (string * string)) : string :=
  template ++ form_get "note_content" "" context.

(** The same machine once the program has started there. *)
Definition started_world : World := snd (start Git.git fresh_world).

Definition with_write_fault (f : write_fault) (w : World) : World :=
  mk_world (git_installed w) (fs w) (Some f) (note_read_fault w)
           (commit_fault w) (clock w) (ticks w) (console w).


(** [git] has been removed from the machine. *)
Definition without_git (w : World) : World :=
  mk_world false (fs w) (note_write_fault w) (note_read_fault w)
           (commit_fault w) (clock w) (ticks w) (console w).

(** [git commit] dies with [detail] on its standard error. *)
Definition with_commit_fault (detail : string) (w : World) : World :=
  mk_world (git_installed w) (fs w) (note_write_fault w) (note_read_fault w)
           (Some detail) (clock w) (ticks w) (console w).

(** A tool that fails whatever it is asked. *)
Definition failing_tool (args : list string) (w : World)
  : CompletedProcess * World :=
  (mk_completed 1 "" "error: permission denied", w).

Definition permission_denied : string :=
  "[Errno 13] Permission denied: 'notes_repo/my_first_note.md'".

(** A repository with a [pre-commit] hook that refuses every commit and
    says so in Latin-1, the [e] with an acute accent being the byte 233:
    [git commit] exits with status 1 and what the hook wrote is on its
    standard error. *)
Definition hook_diagnostic : string :=
  "pre-commit : commit refus" ++ String "233" Git.NL.

Definition hooked_git (args : list string) (w : World)
  : CompletedProcess * World :=
  match args with
  | ["git"; "commit"; "-m"; _] => (mk_completed 1 "" hook_diagnostic, w)
  | _ => Git.git args w
  end.

(** A system on which the file of [git] has lost its permission to be
    executed. *)
Definition locked_out : System :=
  {| refuses := fun args _ _ =>
                  Some ("[Errno 13] Permission denied: '" ++ hd "" args ++ "'") |}.

(** A diagnostic of [git] with a no-break space in front and a line
    ending of two characters. *)
Definition padded_diagnostic : string :=
  String "194" (String "160" "fatal: unable to auto-detect email address")
  ++ String "013" (String "010" "").

(** ** The script of the page

    The page holds the editor, the status line and one variable,
    [saveTimer].  The script runs in the event loop of the browser, one
    callback at a time: a [keyup] in the editor re-arms a timer of
    [SAVE_DELAY_MS]; when the timer fires, [saveContent] sends the text of
    the editor and suspends until the answer is there.  Time is counted in
    milliseconds; a timer that is due when an event arrives runs before
    the event is handled. *)

Module Client.

Definition SAVE_DELAY_MS : N := 2000.

Definition BLUE : string :=
  "mt-3 p-3 text-sm rounded-lg bg-blue-100 text-primary-blue shadow-md".
Definition GREEN : string :=
  "mt-3 p-3 text-sm rounded-lg bg-green-100 text-green-800 shadow-md".
Definition RED : string :=
  "mt-3 p-3 text-sm rounded-lg bg-red-100 text-red-800 shadow-md".
Definition YELLOW : string :=
  "mt-3 p-3 text-sm rounded-lg bg-yellow-100 text-yellow-800 shadow-md".

Record Page := mk_page {
  editor_value : string;        (* [editor.value] *)
  textContent : string;         (* [statusMessage.textContent] *)
  className : string;           (* [statusMessage.className] *)
  saveTimer : option N;         (* [null], or the handle of the last timer *)
  armed : list (N * N);         (* timers waiting: handle and due time, oldest first *)
  next_handle : N;              (* the handle the next [setTimeout] returns *)
  now_ms : N;                   (* time since the page was loaded *)
  fetched : list (N * Form);    (* calls of [fetch('/save', POST)]: when, and the form data *)
  awaiting : nat;               (* calls of [saveContent] suspended at [await] *)
  errors_logged : nat           (* calls of [console.error] *)
}.

Definition set_value (v : string) (p : Page) : Page :=
  mk_page v (textContent p) (className p) (saveTimer p) (armed p)
          (next_handle p) (now_ms p) (fetched p) (awaiting p) (errors_logged p).

Definition set_status (text class : string) (p : Page) : Page :=
  mk_page (editor_value p) text class (saveTimer p) (armed p)
          (next_handle p) (now_ms p) (fetched p) (awaiting p) (errors_logged p).

Definition set_saveTimer (v : option N) (p : Page) : Page :=
  mk_page (editor_value p) (textContent p) (className p) v (armed p)
          (next_handle p) (now_ms p) (fetched p) (awaiting p) (errors_logged p).

Definition set_armed (l : list (N * N)) (p : Page) : Page :=
  mk_page (editor_value p) (textContent p) (className p) (saveTimer p) l
          (next_handle p) (now_ms p) (fetched p) (awaiting p) (errors_logged p).

Definition set_next_handle (h : N) (p : Page) : Page :=
  mk_page (editor_value p) (textContent p) (className p) (saveTimer p) (armed p)
          h (now_ms p) (fetched p) (awaiting p) (errors_logged p).

Definition set_now (t : N) (p : Page) : Page :=
  mk_page (editor_value p) (textContent p) (className p) (saveTimer p) (armed p)
          (next_handle p) t (fetched p) (awaiting p) (errors_logged p).

Definition set_fetched (l : list (N * Form)) (p : Page) : Page :=
  mk_page (editor_value p) (textContent p) (className p) (saveTimer p) (armed p)
          (next_handle p) (now_ms p) l (awaiting p) (errors_logged p).

Definition set_awaiting (n : nat) (p : Page) : Page :=
  mk_page (editor_value p) (textContent p) (className p) (saveTimer p) (armed p)
          (next_handle p) (now_ms p) (fetched p) n (errors_logged p).

Definition set_errors_logged (n : nat) (p : Page) : Page :=
  mk_page (editor_value p) (textContent p) (className p) (saveTimer p) (armed p)
          (next_handle p) (now_ms p) (fetched p) (awaiting p) n.

(** [setTimeout(saveContent, delay)] *)
Definition setTimeout (delay : N) (p : Page) : N * Page :=
  (next_handle p,
   set_next_handle (next_handle p + 1)
     (set_armed (armed p ++ [(next_handle p, now_ms p + delay)]) p))%N.

(** [clearTimeout(handle)] *)
Definition clearTimeout (handle : N) (p : Page) : Page :=
  set_armed (filter (fun timer => negb (fst timer =? handle)%N) (armed p)) p.

(** [if (v)] for a value that is [null] or a number. *)
Definition truthy (v : option N) : bool :=
  match v with
  | Some h => negb (h =? 0)%N
  | None => false
  end.

(** [saveContent] up to its first [await]: the status line, then the
    request with the text the editor holds at that moment. *)
Definition saveContent (p : Page) : Page :=
  let p := set_status "Saving and committing changes..." BLUE p in
  let content := editor_value p in
  let formData := [("content", content)] in
  set_awaiting (S (awaiting p))
    (set_fetched (fetched p ++ [(now_ms p, formData)]) p).

(** The rest of [saveContent], run when the request has settled:
    [outcome] is the object [response.json()] yields, or [None] when
    [fetch] or [response.json()] throws. *)
Definition saveContent_resume (outcome : option Response) (p : Page) : Page :=
  match outcome with
  | Some result =>
      if (status result =? "success")%string
      then set_status ("Saved! " ++ message result) GREEN p
      else set_status ("Save Error: " ++ message result) RED p
  | None =>
      set_errors_logged (S (errors_logged p))
        (set_status "Network Error: Could not connect to server." RED p)
  end.

(** The listener of [keyup] on the editor. *)
Definition on_keyup (p : Page) : Page :=
  let p :=
    match saveTimer p with
    | Some handle => if truthy (saveTimer p) then clearTimeout handle p else p
    | None => p
    end in
  let p := set_status "Typing... Waiting to auto-commit." YELLOW p in
  let (handle, p) := setTimeout SAVE_DELAY_MS p in
  set_saveTimer (Some handle) p.

(** [window.onload] *)
Definition onload (p : Page) : Page :=
  set_status "Application loaded. Start typing in the editor." (className p) p.

(** The page as the markup gives it, the editor holding [value], and once
    it is loaded. *)
Definition parsed (value : string) : Page :=
  mk_page value
    (String "010" "            Waiting for input..." ++ String "010" "        ")
    (YELLOW ++ " transition-opacity duration-300")
    None [] 1%N 0%N [] 0 0.

Definition loaded (value : string) : Page := onload (parsed value).

(** What happens to the page. *)
Inductive Event :=
| Keyup (after : N) (value : string)  (* a key is released, the editor holding [value] *)
| Edit (after : N) (value : string)   (* the text changes without a key: a paste by mouse *)
| Idle (after : N)                    (* nothing, for a while *)
| Settle (after : N) (outcome : option Response). (* a request settles *)

Definition due (t : N) (timer : N * N) : bool := (snd timer <=? t)%N.

(** The timers in [timers] fire in turn, each at its due time. *)
Fixpoint fire (timers : list (N * N)) (p : Page) : Page :=
  match timers with
  | [] => p
  | (_, at_time) :: rest => fire rest (saveContent (set_now at_time p))
  end.

(** [ms] milliseconds pass: the timers due by then fire. *)
Definition elapse (ms : N) (p : Page) : Page :=
  let t := (now_ms p + ms)%N in
  set_now t
    (fire (filter (due t) (armed p))
       (set_armed (filter (fun timer => negb (due t timer)) (armed p)) p)).

Definition step (e : Event) (p : Page) : Page :=
  match e with
  | Keyup after value => on_keyup (set_value value (elapse after p))
  | Edit after value => set_value value (elapse after p)
  | Idle after => elapse after p
  | Settle after outcome =>
      let p := elapse after p in
      match awaiting p with
      | O => p
      | S n => saveContent_resume outcome (set_awaiting n p)
      end
  end.

Definition run (events : list Event) (p : Page) : Page :=
  fold_left (fun p e => step e p) events p.

Definition is_keyup (e : Event) : bool :=
  match e with Keyup _ _ => true | _ => false end.

(** A burst of typing: each key with the time since the one before and
    the text it leaves in the editor. *)
Definition typing (burst : list (N * string)) : list Event :=
  map (fun key => Keyup (fst key) (snd key)) burst.

(** What the script sees of the answer of the server. *)
Definition received (reply : Reply) : option Response :=
  match reply with
  | Json r => Some r
  | Html _ => None
  | InternalServerError _ => None
  end.

End Client.

(** ** Notions used in the statements *)

(** The time a burst of typing takes. *)
Fixpoint total_delay (burst : list (N * string)) : N :=
  match burst with
  | [] => 0%N
  | key :: rest => (fst key + total_delay rest)%N
  end.

(** One timer is armed, the one [saveTimer] names, due a full delay after
    the present moment. *)
Definition just_armed (p : Client.Page) : Prop :=
  exists h,
    Client.armed p = [(h, Client.now_ms p + Client.SAVE_DELAY_MS)%N]
    /\ Client.saveTimer p = Some h /\ h <> 0%N /\ Client.next_handle p <> 0%N.

(** At most one timer is armed, and [saveTimer] names it. *)
Definition single_slot (p : Client.Page) : Prop :=
  Client.next_handle p <> 0%N
  /\ (Client.armed p = []
      \/ exists h d, Client.armed p = [(h, d)]
                     /\ Client.saveTimer p = Some h /\ h <> 0%N).

(** The requests of a session that save. *)
Definition is_save (req : Request) : bool :=
  match req with POST_save _ => true | GET_index => false end.

(** The text of the exception a fault of the write raises. *)
Definition fault_detail (f : write_fault) : string :=
  match f with
  | OpenFails detail => detail
  | WriteFails detail => detail
  end.


Definition git_add : list string := ["git"; "add"; "."].

Definition git_commit (message : string) : list string :=
  ["git"; "commit"; "-m"; message].

(** What the child wrote on its two streams is text in the encoding of
    the locale. *)
Definition readable (child : CompletedProcess) : bool :=
  PyStr.utf8 (stdout child) && PyStr.utf8 (stderr child).

(** The system lets [git add .] be launched in the world [w] and
    [git commit -m message] after it. *)
Definition may_launch {system : System}
           (tool : list string -> World -> CompletedProcess * World)
           (message : string) (w : World) : bool :=
  match refuses git_add REPO_DIR w,
        refuses (git_commit message) REPO_DIR (snd (tool git_add w)) with
  | None, None => true
  | _, _ => false
  end.

(** [git add .] in the world [w] and [git commit -m message] after it
    both print text. *)
Definition speaks_text (tool : list string -> World -> CompletedProcess * World)
           (message : string) (w : World) : bool :=
  readable (fst (tool git_add w))
  && readable (fst (tool (git_commit message) (snd (tool git_add w)))).

(** The last statement of the [try] block of [run_git_commit]: the
    message chosen from the result of [git commit]. *)
Definition report (message : string) (result : CompletedProcess) : Py string :=
  if returncode result =? 0 then
    if PyStr.contains "nothing to commit" (stdout result) then
      at_time <- time_strftime "%H:%M:%S" ;;
      ret ("No changes detected (Autosave attempted at " ++ at_time ++ ").")
    else ret ("Change committed successfully! (" ++ message ++ ")")
  else ret ("Git Commit Failed: " ++ PyStr.strip (stderr result)).

(** The world once the clock has been read. *)
Definition tick (w : World) : World := set_ticks (S (ticks w)) w.

(** The reading the next [time.strftime] formats. *)
Definition reading (w : World) : struct_time := clock w (ticks w).

(** ** Facts about the strings *)

Section StringFacts.

Import PyStr.

Local Ltac div_lia := Z.to_euclidean_division_equations; lia.

Lemma digit_char_is_digit (d : Z) :
  0 <= d < 10 -> is_digit (digit_char d) = true.
Proof.
  intros H.
  assert (E : d = 0 \/ d = 1 \/ d = 2 \/ d = 3 \/ d = 4 \/ d = 5 \/ d = 6
              \/ d = 7 \/ d = 8 \/ d = 9) by lia.
  repeat (destruct E as [E | E]; [subst d; reflexivity |]).
  subst d; reflexivity.
Qed.

Lemma decimal_digits_step (fuel : nat) (n : Z) (acc : string) :
  decimal_digits (S fuel) n acc =
  if n / 10 =? 0 then String (digit_char (n mod 10)) acc
  else decimal_digits fuel (n / 10) (String (digit_char (n mod 10)) acc).
Proof. reflexivity. Qed.

(** The fuel of [decimal] is at least [k + 1] from [2^k] on. *)
Lemma decimal_fuel (n : Z) (k : nat) :
  2 ^ Z.of_nat k <= n -> exists f, S (Z.to_nat (Z.log2 n)) = (S k + f)%nat.
Proof.
  intros H.
  assert (P : 0 < 2 ^ Z.of_nat k) by (apply Z.pow_pos_nonneg; lia).
  assert (L : Z.of_nat k <= Z.log2 n) by (apply Z.log2_le_pow2; lia).
  exists (Z.to_nat (Z.log2 n) - k)%nat. lia.
Qed.

Lemma decimal_one_digit (n : Z) :
  0 <= n < 10 -> decimal n = String (digit_char n) "".
Proof.
  intros H. unfold decimal.
  replace (n <? 0) with false by (symmetry; apply Z.ltb_ge; lia).
  rewrite decimal_digits_step.
  replace (n / 10) with 0 by (symmetry; apply Z.div_small; lia).
  rewrite Z.mod_small by lia. reflexivity.
Qed.

Lemma decimal_two_digits (n : Z) :
  10 <= n < 100 ->
  decimal n = String (digit_char (n / 10)) (String (digit_char (n mod 10)) "").
Proof.
  intros H. unfold decimal.
  replace (n <? 0) with false by (symmetry; apply Z.ltb_ge; lia).
  destruct (decimal_fuel n 1) as [f ->]; [simpl; lia |].
  cbn [Nat.add]. rewrite !decimal_digits_step.
  replace (n / 10 =? 0) with false by (symmetry; apply Z.eqb_neq; div_lia).
  replace (n / 10 / 10) with 0 by div_lia.
  replace (n / 10 mod 10) with (n / 10) by div_lia.
  reflexivity.
Qed.

Lemma decimal_four_digits (n : Z) :
  1000 <= n < 10000 ->
  decimal n =
  String (digit_char (n / 1000)) (String (digit_char (n / 100 mod 10))
    (String (digit_char (n / 10 mod 10)) (String (digit_char (n mod 10)) ""))).
Proof.
  intros H. unfold decimal.
  replace (n <? 0) with false by (symmetry; apply Z.ltb_ge; lia).
  destruct (decimal_fuel n 3) as [f ->]; [simpl; lia |].
  cbn [Nat.add]. rewrite !decimal_digits_step.
  replace (n / 10 =? 0) with false by (symmetry; apply Z.eqb_neq; div_lia).
  replace (n / 10 / 10 =? 0) with false by (symmetry; apply Z.eqb_neq; div_lia).
  replace (n / 10 / 10 / 10 =? 0) with false by (symmetry; apply Z.eqb_neq; div_lia).
  replace (n / 10 / 10 / 10 / 10) with 0 by div_lia.
  replace (n / 10 / 10 / 10 mod 10) with (n / 1000) by div_lia.
  replace (n / 10 / 10 mod 10) with (n / 100 mod 10) by div_lia.
  reflexivity.
Qed.

Lemma pad2_two_digits (n : Z) :
  0 <= n < 100 ->
  pad2 n = String (digit_char (n / 10)) (String (digit_char (n mod 10)) "").
Proof.
  intros H. unfold pad2. destruct (Z.ltb_spec n 10).
  - rewrite decimal_one_digit by div_lia.
    replace (n / 10) with 0 by div_lia. replace (n mod 10) with n by div_lia.
    reflexivity.
  - apply decimal_two_digits; lia.
Qed.

Lemma lacks_app (c : ascii) (s t : string) :
  lacks c (s ++ t) = lacks c s && lacks c t.
Proof.
  induction s as [| d s IH]; simpl; [reflexivity |].
  rewrite IH. apply andb_assoc.
Qed.

(** A needle cannot start inside a stretch that lacks its first
    character. *)
Lemma contains_skip (c : ascii) (needle s t : string) :
  lacks c s = true ->
  contains (String c needle) (s ++ t) = contains (String c needle) t.
Proof.
  induction s as [| d s IH]; simpl; intros H; [reflexivity |].
  apply andb_true_iff in H as [Hd Hs].
  destruct (Ascii.eqb_spec c d) as [-> | Hcd]; [discriminate |].
  destruct (ascii_dec c d) as [E | _]; [contradiction |].
  simpl. fold (contains (String c needle) (s ++ t)). auto.
Qed.

Lemma is_digit_not_letter_n (c : ascii) :
  is_digit c = true -> Ascii.eqb "n" c = false.
Proof.
  destruct c as [[] [] [] [] [] [] [] []]; intros H;
    solve [reflexivity | discriminate H].
Qed.

End StringFacts.

(** ** Facts about [strftime] *)

Section TimeFacts.

Import PyStr.

Variable t : struct_time.
Hypothesis valid : valid_time t.

Lemma strftime_date_time :
  strftime "%Y-%m-%d %H:%M:%S" t =
  decimal (tm_year t) ++ String "-" (pad2 (tm_mon t) ++ String "-"
    (pad2 (tm_mday t) ++ String " " (pad2 (tm_hour t) ++ String ":"
      (pad2 (tm_min t) ++ String ":" (pad2 (tm_sec t) ++ ""))))).
Proof. reflexivity. Qed.

Lemma strftime_time_of_day :
  strftime "%H:%M:%S" t =
  pad2 (tm_hour t) ++ String ":" (pad2 (tm_min t) ++ String ":"
    (pad2 (tm_sec t) ++ "")).
Proof. reflexivity. Qed.

Local Ltac digits :=
  repeat rewrite digit_char_is_digit
    by (Z.to_euclidean_division_equations; lia).

Lemma strftime_is_timestamp :
  is_timestamp (strftime "%Y-%m-%d %H:%M:%S" t) = true.
Proof.
  destruct valid as (Hy & Hm & Hd & HH & HM & HS).
  rewrite strftime_date_time.
  rewrite decimal_four_digits by lia.
  rewrite !pad2_two_digits by lia.
  cbn [append is_timestamp list_ascii_of_string forallb].
  digits. reflexivity.
Qed.

Lemma strftime_is_clock_time :
  is_clock_time (strftime "%H:%M:%S" t) = true.
Proof.
  destruct valid as (Hy & Hm & Hd & HH & HM & HS).
  rewrite strftime_time_of_day.
  rewrite !pad2_two_digits by lia.
  cbn [append is_clock_time list_ascii_of_string forallb].
  digits. reflexivity.
Qed.

End TimeFacts.

(** ** Facts about text *)

Section TextFacts.

Import PyStr.

Lemma all_app (p : ascii -> bool) (s t : string) :
  all p (s ++ t) = all p s && all p t.
Proof.
  induction s as [| c s IH]; cbn [append all]; [reflexivity |].
  rewrite IH. apply andb_assoc.
Qed.

Lemma all_impl (p q : ascii -> bool) (s : string) :
  (forall c, p c = true -> q c = true) ->
  all p s = true -> all q s = true.
Proof.
  intros I. induction s as [| c s IH]; cbn [all]; [reflexivity |].
  intros H. apply andb_true_iff in H as [Hc Hs].
  rewrite (I c Hc), (IH Hs). reflexivity.
Qed.

Lemma lacks_all (c : ascii) (s : string) :
  lacks c s = all (fun d => negb (Ascii.eqb c d)) s.
Proof.
  induction s as [| d s IH]; cbn [lacks all]; [reflexivity |].
  rewrite IH. reflexivity.
Qed.

Lemma is_print_is_plain (c : ascii) : is_print c = true -> is_plain c = true.
Proof. unfold is_plain. intros ->. reflexivity. Qed.

Lemma is_plain_is_ascii (c : ascii) : is_plain c = true -> is_ascii c = true.
Proof.
  destruct c as [[] [] [] [] [] [] [] []]; intros H;
    solve [reflexivity | discriminate H].
Qed.

(** A plain character is none of the control characters. *)
Lemma is_plain_differs (c d : ascii) :
  is_plain d = false -> is_plain c = true -> negb (Ascii.eqb d c) = true.
Proof.
  intros Hd Hc. destruct (Ascii.eqb_spec d c) as [-> | _]; [| reflexivity].
  congruence.
Qed.

Lemma plain_lacks (d : ascii) (s : string) :
  is_plain d = false -> all is_plain s = true -> lacks d s = true.
Proof.
  intros Hd H. rewrite lacks_all.
  exact (all_impl _ _ s (fun c => is_plain_differs c d Hd) H).
Qed.

Lemma print_lacks (d : ascii) (s : string) :
  is_print d = false -> all is_print s = true -> lacks d s = true.
Proof.
  intros Hd H. rewrite lacks_all. revert H. apply all_impl.
  intros c Hc. destruct (Ascii.eqb_spec d c) as [-> | _]; [| reflexivity].
  congruence.
Qed.

(** ASCII is text. *)
Lemma utf8_defect_ascii (s : string) (pos : nat) :
  all is_ascii s = true -> utf8_defect pos s = None.
Proof.
  revert pos. induction s as [| c s IH]; intros pos; [reflexivity |].
  cbn [all utf8_defect]. intros H. apply andb_true_iff in H as [Hc Hs].
  rewrite Hc. apply IH, Hs.
Qed.

Lemma utf8_ascii (s : string) : all is_ascii s = true -> utf8 s = true.
Proof. intros H. unfold utf8. rewrite (utf8_defect_ascii s 0 H). reflexivity. Qed.


Lemma universal_newlines_without_cr (s : string) :
  lacks "013" s = true -> universal_newlines s = s.
Proof.
  induction s as [| c s IH]; [reflexivity |].
  cbn [lacks]. intros H. apply andb_true_iff in H as [Hc Hs].
  apply negb_true_iff in Hc.
  assert (E : universal_newlines (String c s)
              = String c (universal_newlines s)).
  { destruct c as [[] [] [] [] [] [] [] []]; try reflexivity.
    discriminate Hc. }
  rewrite E, IH; [reflexivity | exact Hs].
Qed.

(** Plain text comes out of the decoder as it went in. *)
Lemma decode_plain (s : string) : all is_plain s = true -> decode s = inr s.
Proof.
  intros H. unfold decode.
  rewrite (utf8_defect_ascii s 0)
    by (revert H; apply all_impl, is_plain_is_ascii).
  rewrite universal_newlines_without_cr; [reflexivity |].
  apply plain_lacks; [reflexivity | exact H].
Qed.

Lemma decode_utf8 (s : string) :
  utf8 s = true -> decode s = inr (universal_newlines s).
Proof.
  unfold utf8, decode. destruct (utf8_defect 0 s) as [[[a b] r] |];
    [discriminate | reflexivity].
Qed.

Lemma decode_not_utf8 (s : string) :
  utf8 s = false ->
  exists start stop reason,
    decode s = inl (UnicodeDecodeError "utf-8" s start stop reason).
Proof.
  unfold utf8, decode. destruct (utf8_defect 0 s) as [[[a b] r] |];
    [eauto | discriminate].
Qed.

Lemma digit_char_is_print (d : Z) : 0 <= d < 10 -> is_print (digit_char d) = true.
Proof.
  intros H.
  assert (E : d = 0 \/ d = 1 \/ d = 2 \/ d = 3 \/ d = 4 \/ d = 5 \/ d = 6
              \/ d = 7 \/ d = 8 \/ d = 9) by lia.
  repeat (destruct E as [E | E]; [subst d; reflexivity |]).
  subst d; reflexivity.
Qed.

Lemma decimal_digits_print (fuel : nat) (n : Z) (acc : string) :
  all is_print acc = true -> all is_print (decimal_digits fuel n acc) = true.
Proof.
  revert n acc. induction fuel as [| fuel IH]; intros n acc H; [exact H |].
  rewrite decimal_digits_step.
  assert (D : all is_print (String (digit_char (n mod 10)) acc) = true).
  { cbn [all]. rewrite digit_char_is_print, H; [reflexivity |].
    apply Z.mod_pos_bound. lia. }
  destruct (n / 10 =? 0); [exact D | apply IH, D].
Qed.

Lemma decimal_print (n : Z) : all is_print (decimal n) = true.
Proof.
  unfold decimal. destruct (n <? 0); [cbn [all]; rewrite andb_true_l |];
    apply decimal_digits_print; reflexivity.
Qed.

Lemma pad2_print (n : Z) : all is_print (pad2 n) = true.
Proof.
  unfold pad2. destruct (n <? 10); [cbn [all]; rewrite andb_true_l |];
    apply decimal_print.
Qed.

(** Whatever the clock says, the commit message of a save is printable
    ASCII. *)
Lemma autosave_print (t : struct_time) :
  all is_print ("Autosave: " ++ strftime "%Y-%m-%d %H:%M:%S" t) = true.
Proof.
  rewrite all_app, strftime_date_time.
  repeat (rewrite all_app; cbn [all]).
  rewrite decimal_print, !pad2_print. reflexivity.
Qed.

End TextFacts.

(** ** Facts about the real tool *)

Section GitFacts.

Import PyStr.

(** A message without a line feed is one line. *)
Lemma lines_one_line (s : string) :
  lacks "010" s = true -> Git.lines s = [s].
Proof.
  induction s as [| c s IH]; cbn [Git.lines lacks]; [reflexivity |].
  intros H. apply andb_true_iff in H as [Hc Hs].
  rewrite (IH Hs). apply negb_true_iff in Hc.
  rewrite Ascii.eqb_sym, Hc. reflexivity.
Qed.

Lemma lines_visible (c : ascii) (s : string) :
  Ascii.eqb c "010" = false ->
  exists line others, Git.lines (String c s) = String c line :: others.
Proof.
  intros H. cbn [Git.lines]. rewrite H.
  destruct (Git.lines s) as [| line others]; eauto.
Qed.

Lemma rstrip_visible (c : ascii) (s : string) :
  Git.isspace c = false -> exists kept, Git.rstrip (String c s) = String c kept.
Proof.
  intros H. cbn [Git.rstrip]. rewrite H.
  destruct (Git.rstrip s); eauto.
Qed.

Lemma rstrip_all (p : ascii -> bool) (s : string) :
  all p s = true -> all p (Git.rstrip s) = true.
Proof.
  induction s as [| c s IH]; cbn [all Git.rstrip]; [reflexivity |].
  intros H. apply andb_true_iff in H as [Hc Hs]. specialize (IH Hs).
  destruct (Git.rstrip s) as [| d kept].
  - destruct (Git.isspace c); [reflexivity |]. cbn [all]. rewrite Hc. reflexivity.
  - cbn [all] in IH |- *. rewrite Hc, IH. reflexivity.
Qed.

(** The subject of a message of one line is the line, without the white
    space at its end. *)
Lemma subject_one_line (msg : string) :
  lacks "010" msg = true -> Git.subject msg = Git.rstrip msg.
Proof.
  intros H. unfold Git.subject, Git.tidy_lines.
  rewrite (lines_one_line msg H). cbn [map Git.skip_empty].
  destruct (Git.is_empty (Git.rstrip msg)) eqn:E.
  - apply String.eqb_eq in E. rewrite E. reflexivity.
  - cbn [Git.paragraph]. rewrite E. reflexivity.
Qed.

(** A message that starts with a visible character other than [S] is
    not blank. *)
Lemma blank_visible (c : ascii) (s : string) :
  Git.isspace c = false -> Ascii.eqb c "S" = false ->
  Git.blank (String c s) = false.
Proof.
  intros V S.
  assert (N : Ascii.eqb c "010" = false).
  { destruct (Ascii.eqb_spec c "010") as [-> | _]; [discriminate V | reflexivity]. }
  destruct (lines_visible c s N) as (line & others & L).
  destruct (rstrip_visible c line V) as (kept & K).
  unfold Git.blank, Git.tidy_lines. rewrite L. cbn [map forallb]. rewrite K.
  cbn [Git.is_empty String.eqb orb andb].
  change (String.prefix "Signed-off-by: " (String c kept))
    with (if ascii_dec "S" c then String.prefix "igned-off-by: " kept else false).
  destruct (ascii_dec "S" c) as [E | _]; [| reflexivity].
  subst c. discriminate S.
Qed.

Lemma summary_plain (r : GitRepo) (msg : string) :
  all is_print msg = true -> all is_plain (Git.summary r msg) = true.
Proof.
  intros H. unfold Git.summary.
  rewrite subject_one_line by (apply print_lacks; [reflexivity | exact H]).
  assert (S : all is_plain (Git.rstrip msg) = true).
  { apply rstrip_all. revert H. apply all_impl, is_print_is_plain. }
  rewrite !all_app, S. destruct (log r); reflexivity.
Qed.

Lemma ascii_part_ascii (s : string) : all is_ascii (Git.ascii_part s) = true.
Proof.
  induction s as [| c s IH]; cbn [Git.ascii_part]; [reflexivity |].
  destruct (is_ascii c) eqn:E; [cbn [all]; rewrite E |]; exact IH.
Qed.

Lemma as_text_utf8 (detail : string) : utf8 (Git.as_text detail) = true.
Proof.
  unfold Git.as_text. destruct (utf8 detail) eqn:E; [exact E |].
  apply utf8_ascii, ascii_part_ascii.
Qed.




End GitFacts.


(** ** The primitives at the paths of the program *)

Lemma repo_set_note (c : option string) (w : World) : repo (set_note c w) = repo w.
Proof.
  unfold set_note. destruct (fs w) eqn:F; [| reflexivity].
  unfold repo. rewrite F. reflexivity.
Qed.

Lemma repo_set_ticks (n : nat) (w : World) : repo (set_ticks n w) = repo w.
Proof. reflexivity. Qed.

Lemma write_file_note (content : string) (w : World) :
  write_file NOTE_PATH content w =
  match note_write_fault w, fs w with
  | Some (OpenFails detail), _ => (Raise (OSError detail), w)
  | _, None => (Raise (no_such_file NOTE_PATH), w)
  | Some (WriteFails detail), Some _ => (Raise (OSError detail), set_note (Some "") w)
  | None, Some _ => (Return tt, set_note (Some content) w)
  end.
Proof. reflexivity. Qed.

Lemma read_file_note (w : World) :
  read_file NOTE_PATH w =
  match note_read_fault w, note w with
  | Some detail, _ => (Raise (OSError detail), w)
  | None, None => (Raise (no_such_file NOTE_PATH), w)
  | None, Some c => (Return (PyStr.universal_newlines c), w)
  end.
Proof. reflexivity. Qed.

(** A failed write raises an [Exception] and leaves the repository
    metadata alone. *)
Lemma write_file_raises (p content : string) (w w' : World) (e : exn) :
  write_file p content w = (Raise e, w') ->
  is_Exception e = true /\ repo w' = repo w.
Proof.
  unfold write_file.
  destruct (p =? NOTE_PATH)%string;
    [destruct (note_write_fault w) as [[d | d] |], (fs w) eqn:F |];
    intros H; inversion H; subst; clear H; split;
    try reflexivity; apply repo_set_note.
Qed.


(** Reading changes nothing. *)
Lemma read_file_pure (p : string) (w : World) : snd (read_file p w) = w.
Proof.
  unfold read_file.
  destruct (p =? NOTE_PATH)%string;
    [destruct (note_read_fault w), (note w) |]; reflexivity.
Qed.

Lemma os_path_exists_repo_dir (w : World) :
  os_path_exists REPO_DIR w
  = (Return match fs w with Some _ => true | None => false end, w).
Proof. reflexivity. Qed.

Lemma os_path_exists_dot_git (w : World) :
  os_path_exists (os_path_join REPO_DIR ".git") w
  = (Return match repo w with Some _ => true | None => false end, w).
Proof. reflexivity. Qed.

Lemma os_path_exists_note (w : World) :
  os_path_exists NOTE_PATH w
  = (Return match note w with Some _ => true | None => false end, w).
Proof. reflexivity. Qed.

Lemma bootstrapped_inv (w : World) :
  bootstrapped w = true ->
  exists r c, fs w = Some (mk_dir (Some r) (Some c)).
Proof.
  unfold bootstrapped.
  destruct (fs w) as [[[r |] [c |]] |]; try discriminate; eauto.
Qed.

(** ** Launching [git], on any system and whatever the tool does *)

Section Launching.

Context {system : System}.
Variable tool : list string -> World -> CompletedProcess * World.

Lemma communicate_readable (child : CompletedProcess) :
  readable child = true ->
  communicate CAPTURE_TEXT child
  = inr (mk_completed (returncode child)
           (PyStr.universal_newlines (stdout child))
           (PyStr.universal_newlines (stderr child))).
Proof.
  unfold readable. intros H. apply andb_true_iff in H as [Ho He].
  unfold communicate. rewrite (decode_utf8 _ Ho), (decode_utf8 _ He).
  reflexivity.
Qed.

Lemma communicate_fails (child : CompletedProcess) (e : exn) :
  communicate CAPTURE_TEXT child = inl e ->
  readable child = false
  /\ exists object start stop reason,
      e = UnicodeDecodeError "utf-8" object start stop reason.
Proof.
  unfold communicate, readable.
  destruct (PyStr.utf8 (stdout child)) eqn:Ho.
  - rewrite (decode_utf8 _ Ho).
    destruct (PyStr.utf8 (stderr child)) eqn:He.
    + rewrite (decode_utf8 _ He). discriminate.
    + destruct (decode_not_utf8 _ He) as (a & b & why & ->).
      intros H; inversion H. split; [reflexivity | eauto].
  - destruct (decode_not_utf8 _ Ho) as (a & b & why & ->).
    intros H; inversion H. split; [reflexivity | eauto].
Qed.

(** A launch leaves the world as it was or as the tool left it. *)
Lemma subprocess_run_world (args : list string) (cwd : string) (check : bool)
      (streams : redirect) (w w' : World) (o : Outcome CompletedProcess) :
  subprocess_run tool args cwd check streams w = (o, w') ->
  w' = w \/ w' = snd (tool args w).
Proof.
  unfold subprocess_run.
  destruct (negb (forallb (PyStr.lacks "000") args));
    [intros H; inversion H; auto |].
  destruct (if (cwd =? REPO_DIR)%string then fs w else None);
    [| intros H; inversion H; auto].
  destruct (refuses args cwd w); [intros H; inversion H; auto |].
  destruct (git_installed w); [| intros H; inversion H; auto].
  destruct (tool args w) as [child w1]. cbn [snd].
  destruct (communicate streams child) as [e | result];
    [intros H; inversion H; auto |].
  destruct (check && negb (returncode result =? 0));
    intros H; inversion H; auto.
Qed.

(** A launch that returns has run the tool. *)
Lemma subprocess_run_returns (args : list string) (check : bool)
      (streams : redirect) (w w' : World) (result : CompletedProcess) :
  subprocess_run tool args REPO_DIR check streams w = (Return result, w') ->
  w' = snd (tool args w)
  /\ communicate streams (fst (tool args w)) = inr result
  /\ (check = true -> returncode result = 0).
Proof.
  unfold subprocess_run.
  destruct (negb (forallb (PyStr.lacks "000") args)); [discriminate |].
  change (REPO_DIR =? REPO_DIR)%string with true. cbv iota.
  destruct (fs w); [| discriminate].
  destruct (refuses args REPO_DIR w); [discriminate |].
  destruct (git_installed w); [| discriminate].
  destruct (tool args w) as [child w1]. cbn [fst snd].
  destruct (communicate streams child) as [e | got]; [discriminate |].
  destruct check; cbn [andb].
  - destruct (Z.eqb_spec (returncode got) 0) as [E | E]; cbn [negb];
      intros H; inversion H; subst. auto.
  - intros H; inversion H; subst. repeat split. discriminate.
Qed.

(** What a launch can raise. *)
Lemma subprocess_run_raises (args : list string) (check : bool)
      (streams : redirect) (w w' : World) (e : exn) :
  subprocess_run tool args REPO_DIR check streams w = (Raise e, w') ->
  (forallb (PyStr.lacks "000") args = false
   /\ e = ValueError "embedded null byte" /\ w' = w)
  \/ (exists msg, e = FileNotFoundError msg /\ w' = w)
  \/ (exists detail,
        refuses args REPO_DIR w = Some detail /\ e = OSError detail /\ w' = w)
  \/ (streams = CAPTURE_TEXT /\ readable (fst (tool args w)) = false
      /\ w' = snd (tool args w)
      /\ exists object start stop reason,
          e = UnicodeDecodeError "utf-8" object start stop reason)
  \/ (check = true /\ w' = snd (tool args w)
      /\ exists result,
          communicate streams (fst (tool args w)) = inr result
          /\ returncode result <> 0
          /\ e = CalledProcessError (returncode result) args
                   (stdout result) (stderr result)).
Proof.
  unfold subprocess_run.
  destruct (forallb (PyStr.lacks "000") args); cbn [negb];
    [| intros H; inversion H; auto].
  change (REPO_DIR =? REPO_DIR)%string with true. cbv iota.
  destruct (fs w);
    [| intros H; inversion H; subst; right; left; eexists; split; reflexivity].
  destruct (refuses args REPO_DIR w) as [detail |];
    [intros H; inversion H; subst; right; right; left; eauto |].
  destruct (git_installed w);
    [| intros H; inversion H; subst; right; left; eexists; split; reflexivity].
  destruct (tool args w) as [child w1]. cbn [fst snd].
  destruct (communicate streams child) as [e1 | result] eqn:C.
  - intros H; inversion H; subst. right. right. right. left.
    destruct streams; [discriminate C |].
    destruct (communicate_fails _ _ C) as [U D]. auto.
  - destruct check; cbn [andb]; [| discriminate].
    destruct (Z.eqb_spec (returncode result) 0) as [E | E]; cbn [negb];
      intros H; inversion H; subst.
    right. right. right. right. split; [reflexivity |]. split; [reflexivity |].
    exists result. auto.
Qed.

Lemma report_returns (message : string) (result : CompletedProcess) (w : World) :
  exists s w', report message result w = (Return s, w').
Proof.
  unfold report.
  destruct (returncode result =? 0);
    [destruct (PyStr.contains _ _) |]; eexists; eexists; reflexivity.
Qed.

Lemma report_world (message : string) (result : CompletedProcess)
      (w w' : World) (o : Outcome string) :
  report message result w = (o, w') -> w' = w \/ w' = tick w.
Proof.
  unfold report, bind, time_strftime, ret.
  destruct (returncode result =? 0);
    [destruct (PyStr.contains _ _) |]; intros H; inversion H; auto.
Qed.

Lemma run_git_commit_unfold (message : string) (w : World) :
  run_git_commit tool message w =
  match subprocess_run tool git_add REPO_DIR true CAPTURE_TEXT w with
  | (Raise (CalledProcessError _ _ _ err), w1) =>
      (Return ("System error during Git operation: " ++ err), w1)
  | (Raise (FileNotFoundError _), w1) =>
      (Return "System error: Git executable not found.", w1)
  | (Raise e, w1) => (Raise e, w1)
  | (Return _, w1) =>
      match subprocess_run tool (git_commit message) REPO_DIR false
              CAPTURE_TEXT w1 with
      | (Raise (CalledProcessError _ _ _ err), w2) =>
          (Return ("System error during Git operation: " ++ err), w2)
      | (Raise (FileNotFoundError _), w2) =>
          (Return "System error: Git executable not found.", w2)
      | (Raise e, w2) => (Raise e, w2)
      | (Return result, w2) => report message result w2
      end
  end.
Proof.
  unfold run_git_commit, try_except, bind.
  fold git_add. fold (git_commit message).
  destruct (subprocess_run tool git_add REPO_DIR true CAPTURE_TEXT w)
    as [[r1 | e1] w1].
  - destruct (subprocess_run tool (git_commit message) REPO_DIR false
                CAPTURE_TEXT w1) as [[r2 | e2] w2].
    + unfold report, bind.
      destruct (returncode r2 =? 0);
        [destruct (PyStr.contains _ _) |]; reflexivity.
    + destruct e2; reflexivity.
  - destruct e1; reflexivity.
Qed.

(** The worlds [run_git_commit] can leave: the one it found, the one
    after [git add], the one after [git commit], and that one with the
    clock read once more. *)
Lemma run_git_commit_world (message : string) (w w' : World)
      (o : Outcome string) :
  run_git_commit tool message w = (o, w') ->
  let wa := snd (tool git_add w) in
  let wc := snd (tool (git_commit message) wa) in
  w' = w \/ w' = wa \/ w' = wc \/ w' = tick wc.
Proof.
  rewrite run_git_commit_unfold. cbv zeta.
  destruct (subprocess_run tool git_add REPO_DIR true CAPTURE_TEXT w)
    as [[r1 | e1] w1] eqn:A.
  - apply subprocess_run_returns in A as (-> & _).
    destruct (subprocess_run tool (git_commit message) REPO_DIR false
                CAPTURE_TEXT (snd (tool git_add w))) as [[r2 | e2] w2] eqn:C.
    + apply subprocess_run_returns in C as (-> & _).
      intros H. apply report_world in H as [-> | ->]; auto.
    + apply subprocess_run_world in C.
      destruct e2; intros H; inversion H; subst; destruct C; auto.
  - apply subprocess_run_world in A.
    destruct e1; intros H; inversion H; subst; destruct A; auto.
Qed.

(** [run_git_commit] returns a string when the message has no NUL, the
    system lets [git] be launched and what [git] prints is text. *)
Lemma run_git_commit_returns (message : string) (w : World) :
  PyStr.lacks "000" message = true ->
  may_launch tool message w = true ->
  speaks_text tool message w = true ->
  exists s w', run_git_commit tool message w = (Return s, w').
Proof.
  intros N L T. unfold speaks_text in T. apply andb_true_iff in T as [Ta Tc].
  unfold may_launch in L.
  destruct (refuses git_add REPO_DIR w) eqn:La; [discriminate L |].
  destruct (refuses (git_commit message) REPO_DIR (snd (tool git_add w))) eqn:Lc;
    [discriminate L |].
  rewrite run_git_commit_unfold.
  destruct (subprocess_run tool git_add REPO_DIR true CAPTURE_TEXT w)
    as [[r1 | e1] w1] eqn:A.
  - apply subprocess_run_returns in A as (-> & _).
    destruct (subprocess_run tool (git_commit message) REPO_DIR false
                CAPTURE_TEXT (snd (tool git_add w))) as [[r2 | e2] w2] eqn:C.
    + apply report_returns.
    + apply subprocess_run_raises in C
        as [(F & _) | [(msg & -> & _) | [(d & R & _) | [(_ & U & _) | (F & _)]]]].
      * cbn [git_commit forallb] in F. rewrite N in F. discriminate F.
      * eauto.
      * congruence.
      * congruence.
      * discriminate F.
  - apply subprocess_run_raises in A
      as [(F & _) | [(msg & -> & _) | [(d & R & _)
          | [(_ & U & _) | (_ & _ & r & _ & _ & ->)]]]].
    + discriminate F.
    + eauto.
    + congruence.
    + congruence.
    + eauto.
Qed.

Lemma save_and_commit_unfold (form : Form) (w : World) :
  save_and_commit tool form w =
  match write_file NOTE_PATH (form_get "content" "" form) (tick w) with
  | (Return _, w1) =>
      match run_git_commit tool
              ("Autosave: " ++ strftime "%Y-%m-%d %H:%M:%S" (reading w)) w1 with
      | (Return s, w2) => (Return (mk_response "success" s), w2)
      | (Raise e, w2) => (Raise e, w2)
      end
  | (Raise e, w1) =>
      if is_Exception e
      then (Return (mk_response "error" ("File write failed: " ++ str_exn e)), w1)
      else (Raise e, w1)
  end.
Proof.
  unfold save_and_commit, bind, try_except, time_strftime.
  fold (tick w). fold (reading w).
  destruct (write_file NOTE_PATH (form_get "content" "" form) (tick w))
    as [[[] | e] w1]; [reflexivity |].
  destruct (is_Exception e); reflexivity.
Qed.

(** C3, as amended.  When the write of the note succeeds, the system
    lets [git] be launched and what [git] prints is text in the encoding
    of the locale, the handler answers with status [success] whatever the
    commit does, on any system and for any tool: the message is the
    string [run_git_commit] returns, which is the no-changes note when
    [git commit] exits with 0 and says so, the committed note when it
    exits with 0 otherwise, and [Git Commit Failed: <detail>], the detail
    being the standard error without the white space around it, when it
    exits with another status; nothing is raised. *)
Theorem save_succeeds_whatever_commit_does
        (form : Form) (w w1 : World) :
  write_file NOTE_PATH (form_get "content" "" form) (tick w) = (Return tt, w1) ->
  let commit_message :=
    "Autosave: " ++ strftime "%Y-%m-%d %H:%M:%S" (reading w) in
  may_launch tool commit_message w1 = true ->
  speaks_text tool commit_message w1 = true ->
  exists s w2,
    save_and_commit tool form w = (Return (mk_response "success" s), w2)
    /\ run_git_commit tool commit_message w1 = (Return s, w2)
    /\ forall r1 wa result wb,
        subprocess_run tool git_add REPO_DIR true CAPTURE_TEXT w1
        = (Return r1, wa) ->
        subprocess_run tool (git_commit commit_message) REPO_DIR false
          CAPTURE_TEXT wa
        = (Return result, wb) ->
        (returncode result = 0 ->
         PyStr.contains "nothing to commit" (stdout result) = true ->
         s = "No changes detected (Autosave attempted at "
             ++ strftime "%H:%M:%S" (reading wb) ++ ").")
        /\ (returncode result = 0 ->
            PyStr.contains "nothing to commit" (stdout result) = false ->
            s = "Change committed successfully! (" ++ commit_message ++ ")")
        /\ (returncode result <> 0 ->
            s = "Git Commit Failed: " ++ PyStr.strip (stderr result)).
Proof.
  intros H commit_message L T.
  assert (N : PyStr.lacks "000" commit_message = true)
    by (apply print_lacks; [reflexivity | apply autosave_print]).
  destruct (run_git_commit_returns commit_message w1 N L T) as (s & w2 & R).
  exists s, w2. split; [| split; [exact R |]].
  - rewrite save_and_commit_unfold, H. fold commit_message. rewrite R.
    reflexivity.
  - intros r1 wa result wb A C.
    rewrite run_git_commit_unfold, A, C in R. unfold report in R.
    repeat split.
    + intros Z0 M. rewrite Z0, M in R. inversion R. reflexivity.
    + intros Z0 M. rewrite Z0, M in R. inversion R. reflexivity.
    + intros NZ. apply Z.eqb_neq in NZ. rewrite NZ in R.
      inversion R. reflexivity.
Qed.

(** C9, as amended.  For a message that is text without a NUL
    character, on a system that lets [git] be launched and with a [git]
    that prints text in the encoding of the locale, [run_git_commit]
    returns a string, whatever the tool does besides.  When a launch
    fails because the executable (or the working directory) is missing,
    the string is [System error: Git executable not found.]; when
    [git add] exits with a non-zero status it is
    [System error during Git operation: <stderr>]; and the save handler
    sends either of them with status [success]. *)
Theorem run_git_commit_total (message : string) (w : World) :
  PyStr.utf8 message = true ->
  PyStr.lacks "000" message = true ->
  may_launch tool message w = true ->
  speaks_text tool message w = true ->
  exists s w',
    run_git_commit tool message w = (Return s, w')
    /\ (forall msg w1,
          subprocess_run tool git_add REPO_DIR true CAPTURE_TEXT w
          = (Raise (FileNotFoundError msg), w1) ->
          s = "System error: Git executable not found." /\ w' = w1)
    /\ (forall rc cmd out err w1,
          subprocess_run tool git_add REPO_DIR true CAPTURE_TEXT w
          = (Raise (CalledProcessError rc cmd out err), w1) ->
          s = "System error during Git operation: " ++ err /\ w' = w1)
    /\ (forall r1 wa msg w1,
          subprocess_run tool git_add REPO_DIR true CAPTURE_TEXT w
          = (Return r1, wa) ->
          subprocess_run tool (git_commit message) REPO_DIR false
            CAPTURE_TEXT wa
          = (Raise (FileNotFoundError msg), w1) ->
          s = "System error: Git executable not found." /\ w' = w1)
    /\ (git_installed w = false ->
        s = "System error: Git executable not found." /\ w' = w)
    /\ (forall form w0,
          write_file NOTE_PATH (form_get "content" "" form) (tick w0)
          = (Return tt, w) ->
          message = "Autosave: " ++ strftime "%Y-%m-%d %H:%M:%S" (reading w0) ->
          save_and_commit tool form w0
          = (Return (mk_response "success" s), w')).
Proof.
  intros _ N L T.
  destruct (run_git_commit_returns message w N L T) as (s & w' & R).
  exists s, w'. split; [exact R |].
  pose proof R as U. rewrite run_git_commit_unfold in U.
  split; [| split; [| split; [| split]]].
  - intros msg w1 A. rewrite A in U. inversion U. auto.
  - intros rc cmd out err w1 A. rewrite A in U. inversion U. auto.
  - intros r1 wa msg w1 A C. rewrite A, C in U. inversion U. auto.
  - intros G. unfold may_launch in L.
    destruct (refuses git_add REPO_DIR w) eqn:La; [discriminate L |].
    unfold subprocess_run in U.
    change (negb (forallb (PyStr.lacks "000") git_add)) with false in U.
    change (REPO_DIR =? REPO_DIR)%string with true in U. cbv iota in U.
    rewrite La, G in U.
    destruct (fs w); inversion U; auto.
  - intros form w0 W ->. rewrite save_and_commit_unfold, W, R. reflexivity.
Qed.

End Launching.

(** ** Properties that hold whatever the tool does *)

Section Properties.

Variable tool : list string -> World -> CompletedProcess * World.
Variable render_template_string : string -> list (string * string) -> string.
Variable HTML_TEMPLATE : string.

Lemma subprocess_run_in_repo (args : list string) (check : bool)
      (streams : redirect) (w : World) :
  forallb (PyStr.lacks "000") args = true ->
  subprocess_run tool args REPO_DIR check streams w =
  match fs w with
  | None => (Raise (no_such_file REPO_DIR), w)
  | Some _ =>
      if git_installed w then
        let (child, w') := tool args w in
        match communicate streams child with
        | inl e => (Raise e, w')
        | inr result =>
            if check && negb (returncode result =? 0)
            then (Raise (CalledProcessError (returncode result) args
                           (stdout result) (stderr result)), w')
            else (Return result, w')
        end
      else (Raise (no_such_file (hd "" args)), w)
  end.
Proof. intros H. unfold subprocess_run. rewrite H. reflexivity. Qed.

(** C2. When the write of the note fails, the handler answers with
    status [error] and the text [File write failed: <detail>], and no
    commit is attempted: the world it leaves is the one the failed write
    left, whose repository, and so whose history, is the one before the
    request. *)
Theorem save_write_failure_skips_commit
        (form : Form) (w w1 : World) (e : exn) :
  write_file NOTE_PATH (form_get "content" "" form) (tick w) = (Raise e, w1) ->
  save_and_commit tool form w
  = (Return (mk_response "error" ("File write failed: " ++ str_exn e)), w1)
  /\ repo w1 = repo w
  /\ history w1 = history w.
Proof.
  intros H. rewrite save_and_commit_unfold, H.
  destruct (write_file_raises _ _ _ _ _ H) as [-> R].
  assert (R' : repo w1 = repo w) by (rewrite R; reflexivity).
  unfold history. rewrite R'. auto.
Qed.

Lemma index_unfold (w : World) :
  index render_template_string HTML_TEMPLATE w =
  match read_file NOTE_PATH w with
  | (Return content, w') =>
      (Return (render_template_string HTML_TEMPLATE
                 [("note_content", content)]), w')
  | (Raise e, w') =>
      if is_Exception e
      then (Return (render_template_string HTML_TEMPLATE
                      [("note_content", "Error loading file: " ++ str_exn e)]),
            w')
      else (Raise e, w')
  end.
Proof.
  unfold index, bind, try_except.
  destruct (read_file NOTE_PATH w) as [[c | e] w']; [reflexivity |].
  destruct (is_Exception e); reflexivity.
Qed.


(** C10. Serving the page leaves the world as it was: the note on disk
    and the commit history in particular. *)
Theorem index_is_read_only (w : World) :
  let w' := snd (handle tool render_template_string HTML_TEMPLATE GET_index w) in
  w' = w /\ note w' = note w /\ history w' = history w
  /\ snd (index render_template_string HTML_TEMPLATE w) = w.
Proof.
  assert (I : snd (index render_template_string HTML_TEMPLATE w) = w).
  { rewrite index_unfold.
    pose proof (read_file_pure NOTE_PATH w) as P.
    destruct (read_file NOTE_PATH w) as [[c | e] w'];
      [| destruct (is_Exception e)]; exact P. }
  assert (E : snd (handle tool render_template_string HTML_TEMPLATE GET_index w) = w).
  { unfold handle.
    destruct (index render_template_string HTML_TEMPLATE w) as [[b | e] w'];
      exact I. }
  cbv zeta. rewrite E. auto.
Qed.

Lemma setup_repo_noop (w : World) :
  bootstrapped w = true -> setup_repo tool w = (Return true, w).
Proof.
  intros B. destruct (bootstrapped_inv w B) as (r & c & F).
  unfold setup_repo, bind.
  rewrite os_path_exists_repo_dir, F. cbn [negb ret].
  rewrite os_path_exists_dot_git. unfold repo at 1. rewrite F.
  cbn [dot_git negb ret].
  rewrite os_path_exists_note. unfold note at 1. rewrite F.
  reflexivity.
Qed.


(** C6. On a bootstrapped repository [setup_repo] returns [True] and
    leaves the world as it was: nothing is created, initialised or
    written again, and the history gains no commit. *)
Theorem setup_repo_idempotent (w : World) :
  bootstrapped w = true ->
  setup_repo tool w = (Return true, w)
  /\ history (snd (setup_repo tool w)) = history w.
Proof.
  intros B. rewrite (setup_repo_noop w B). split; reflexivity.
Qed.


End Properties.

(** ** Properties with the real tool *)

Section RealTool.

Import PyStr.

Lemma same_tree_spec (a b : option string) :
  Git.same_tree a b = true <-> a = b.
Proof.
  destruct a as [x |], b as [y |]; cbn; split; intros H;
    try discriminate; try reflexivity.
  - apply String.eqb_eq in H. congruence.
  - inversion H. apply String.eqb_refl.
Qed.

Lemma decimal_digits_lacks_letter_n (fuel : nat) (n : Z) (acc : string) :
  lacks "n" acc = true -> lacks "n" (decimal_digits fuel n acc) = true.
Proof.
  revert n acc. induction fuel as [| fuel IH]; intros n acc H; [exact H |].
  rewrite decimal_digits_step.
  assert (D : lacks "n" (String (digit_char (n mod 10)) acc) = true).
  { cbn [lacks]. rewrite is_digit_not_letter_n, H; [reflexivity |].
    apply digit_char_is_digit. apply Z.mod_pos_bound. lia. }
  destruct (n / 10 =? 0); [exact D | apply IH, D].
Qed.

Lemma decimal_lacks_letter_n (n : Z) : lacks "n" (decimal n) = true.
Proof.
  unfold decimal. destruct (n <? 0); [cbn [lacks]; cbn [Ascii.eqb Bool.eqb negb andb] |];
    apply decimal_digits_lacks_letter_n; reflexivity.
Qed.

Lemma pad2_lacks_letter_n (n : Z) : lacks "n" (pad2 n) = true.
Proof.
  unfold pad2. destruct (n <? 10); [cbn [lacks]; cbn [Ascii.eqb Bool.eqb negb andb] |];
    apply decimal_lacks_letter_n.
Qed.

(** Whatever the clock says, the commit message of a save has no letter
    [n] in it. *)
Lemma autosave_lacks_letter_n (t : struct_time) :
  lacks "n" ("Autosave: " ++ strftime "%Y-%m-%d %H:%M:%S" t) = true.
Proof.
  rewrite lacks_app, strftime_date_time.
  repeat (rewrite lacks_app; cbn [lacks]).
  rewrite decimal_lacks_letter_n, !pad2_lacks_letter_n. reflexivity.
Qed.

Lemma summary_of_autosave (r : GitRepo) (t : struct_time) :
  contains "nothing to commit"
    (Git.summary r ("Autosave: " ++ strftime "%Y-%m-%d %H:%M:%S" t)) = false.
Proof.
  unfold Git.summary.
  set (msg := "Autosave: " ++ strftime "%Y-%m-%d %H:%M:%S" t).
  assert (P : all is_print msg = true) by apply autosave_print.
  rewrite subject_one_line by (apply print_lacks; [reflexivity | exact P]).
  set (head := "[master" ++ match log r with [] => " (root-commit)" | _ :: _ => "" end ++ "] ").
  replace (("[master" ++ match log r with [] => " (root-commit)" | _ :: _ => "" end
            ++ "] " ++ Git.rstrip msg ++ Git.NL ++ " 1 file changed" ++ Git.NL))
    with ((head ++ Git.rstrip msg) ++ Git.NL ++ " 1 file changed" ++ Git.NL).
  - rewrite contains_skip; [reflexivity |].
    rewrite lacks_app.
    replace (lacks "n" (Git.rstrip msg)) with true.
    + unfold head. destruct (log r); reflexivity.
    + symmetry. rewrite lacks_all. apply rstrip_all. rewrite <- lacks_all.
      apply autosave_lacks_letter_n.
  - unfold head. destruct (log r); reflexivity.
Qed.

Lemma repo_inv (w : World) (r : GitRepo) :
  repo w = Some r -> fs w = Some (mk_dir (Some r) (note w)).
Proof.
  unfold repo, note. destruct (fs w) as [[g n] |]; cbn; intros H;
    [subst g; reflexivity | discriminate].
Qed.

(** Plain text on both streams reaches the parent as it was written. *)
Lemma communicate_plain (rc : Z) (out err : string) :
  all is_plain out = true -> all is_plain err = true ->
  communicate CAPTURE_TEXT (mk_completed rc out err)
  = inr (mk_completed rc out err).
Proof.
  intros Ho He. unfold communicate. cbn [stdout stderr returncode].
  rewrite (decode_plain _ Ho), (decode_plain _ He). reflexivity.
Qed.

Lemma nothing_to_commit_plain (r : GitRepo) :
  all is_plain (Git.nothing_to_commit r) = true.
Proof. unfold Git.nothing_to_commit. destruct (log r); reflexivity. Qed.

(** [git add .] through [subprocess.run], in an initialised
    repository. *)
Lemma git_add_real (w : World) (r : GitRepo) :
  repo w = Some r ->
  git_installed w = true ->
  subprocess_run Git.git git_add REPO_DIR true CAPTURE_TEXT w
  = (Return (Git.succeeded ""), set_repo (Some (mk_repo (note w) (log r))) w).
Proof.
  intros R G. rewrite subprocess_run_in_repo by reflexivity.
  rewrite (repo_inv w r R), G. cbn [Git.git git_add]. unfold Git.add_all.
  rewrite R. reflexivity.
Qed.

(** [git commit] through [subprocess.run], with a printable message and
    nothing that makes it die. *)
Lemma git_commit_real (message : string) (w : World) (r : GitRepo) :
  repo w = Some r ->
  git_installed w = true ->
  commit_fault w = None ->
  all is_print message = true ->
  subprocess_run Git.git (git_commit message) REPO_DIR false CAPTURE_TEXT w
  = if Git.same_tree (staged r) (head_tree r)
    then (Return (mk_completed 1 (Git.nothing_to_commit r) ""), w)
    else if Git.blank message
    then (Return (mk_completed 1 ""
                    ("Aborting commit due to empty commit message." ++ Git.NL)), w)
    else (Return (Git.succeeded (Git.summary r message)),
          set_repo (Some (mk_repo (staged r)
                            (mk_commit message (staged r) :: log r))) w).
Proof.
  intros R G C P.
  rewrite subprocess_run_in_repo
    by (cbn [git_commit forallb];
        rewrite (print_lacks "000" message eq_refl P); reflexivity).
  rewrite (repo_inv w r R), G. cbn [Git.git git_commit]. unfold Git.commit.
  rewrite R, C.
  destruct (Git.same_tree _ _).
  - rewrite communicate_plain by (try apply nothing_to_commit_plain; reflexivity).
    reflexivity.
  - destruct (Git.blank message).
    + reflexivity.
    + unfold Git.succeeded.
      rewrite communicate_plain by (try apply summary_plain, P; reflexivity).
      reflexivity.
Qed.

(** [run_git_commit] in an initialised repository, with [git] at hand, a
    printable message and nothing that makes [git commit] die. *)
Lemma run_git_commit_real (message : string) (w : World) (r : GitRepo) :
  repo w = Some r ->
  git_installed w = true ->
  commit_fault w = None ->
  all is_print message = true ->
  run_git_commit Git.git message w =
  let staged_world := set_repo (Some (mk_repo (note w) (log r))) w in
  if Git.same_tree (note w) (head_tree r)
  then (Return "Git Commit Failed: ", staged_world)
  else if Git.blank message
  then (Return "Git Commit Failed: Aborting commit due to empty commit message.",
        staged_world)
  else report message (Git.succeeded (Git.summary r message))
         (set_repo (Some (mk_repo (note w)
                            (mk_commit message (note w) :: log r))) w).
Proof.
  intros R G C P.
  rewrite run_git_commit_unfold, (git_add_real w r R G).
  set (wa := set_repo (Some (mk_repo (note w) (log r))) w).
  assert (Ra : repo wa = Some (mk_repo (note w) (log r))).
  { unfold wa, set_repo, repo. rewrite (repo_inv w r R). reflexivity. }
  assert (Ea : set_repo (Some (mk_repo (note w)
                                 (mk_commit message (note w) :: log r))) wa
               = set_repo (Some (mk_repo (note w)
                                   (mk_commit message (note w) :: log r))) w).
  { unfold wa, set_repo. rewrite (repo_inv w r R). reflexivity. }
  assert (Ga : git_installed wa = true)
    by (unfold wa, set_repo; destruct (fs w); exact G).
  assert (Ca : commit_fault wa = None)
    by (unfold wa, set_repo; destruct (fs w); exact C).
  rewrite (git_commit_real message wa _ Ra Ga Ca P).
  cbn [staged log]. change (head_tree (mk_repo (note w) (log r))) with (head_tree r).
  cbv zeta. fold wa.
  destruct (Git.same_tree _ _); [reflexivity |].
  destruct (Git.blank message); [reflexivity |].
  rewrite Ea. reflexivity.
Qed.

Lemma healthy_inv (w : World) :
  healthy w = true ->
  git_installed w = true /\ note_write_fault w = None /\ commit_fault w = None.
Proof.
  unfold healthy.
  destruct (git_installed w), (note_write_fault w), (commit_fault w);
    cbn; intros H; try discriminate; auto.
Qed.

(** A save in an initialised, healthy repository: the note is written,
    staged, and committed exactly when it differs from the last commit. *)
Lemma save_real (form : Form) (w : World) (r : GitRepo) :
  repo w = Some r ->
  healthy w = true ->
  let content := form_get "content" "" form in
  let commit_message :=
    "Autosave: " ++ strftime "%Y-%m-%d %H:%M:%S" (reading w) in
  exists w',
    (if Git.same_tree (Some content) (head_tree r)
     then save_and_commit Git.git form w
          = (Return (mk_response "success" "Git Commit Failed: "), w')
          /\ repo w' = Some (mk_repo (Some content) (log r))
     else save_and_commit Git.git form w
          = (Return (mk_response "success"
                       ("Change committed successfully! ("
                        ++ commit_message ++ ")")), w')
          /\ repo w' = Some (mk_repo (Some content)
                               (mk_commit commit_message (Some content)
                                  :: log r)))
    /\ note w' = Some content /\ healthy w' = true
    /\ clock w' = clock w /\ ticks w' = S (ticks w).
Proof.
  intros R H content commit_message.
  destruct (healthy_inv w H) as (G & W & C).
  rewrite save_and_commit_unfold, write_file_note.
  fold content. fold commit_message.
  destruct w as [gi [[g n] |] wf rf cf clk tk con]; [| discriminate R].
  cbn in R, G, W, C. subst gi wf cf g.
  cbn [tick set_ticks note_write_fault fs ticks set_note set_fs git_installed
       note_read_fault commit_fault clock console dot_git].
  erewrite run_git_commit_real;
    [| reflexivity | reflexivity | reflexivity | apply autosave_print].
  cbn -[strip report Git.summary Git.same_tree Git.blank append commit_message].
  destruct (Git.same_tree (Some content) (head_tree r)).
  - eexists. split; [split; reflexivity | repeat split].
  - assert (S : Git.blank commit_message = false)
      by (apply blank_visible; reflexivity).
    rewrite S. unfold report.
    cbn [Git.succeeded returncode stdout Z.eqb].
    unfold commit_message at 1, reading. rewrite summary_of_autosave.
    eexists. split; [split; reflexivity | repeat split].
Qed.

Lemma bootstrapped_repo (w : World) :
  bootstrapped w = true -> exists r, repo w = Some r.
Proof.
  intros B. destruct (bootstrapped_inv w B) as (r & c & F).
  exists r. unfold repo. rewrite F. reflexivity.
Qed.

Lemma differs_from_last_commit (w : World) (r : GitRepo) (content : string) :
  repo w = Some r ->
  last_committed w <> Some content ->
  Git.same_tree (Some content) (head_tree r) = false.
Proof.
  intros R D. unfold last_committed in D. rewrite R in D.
  destruct (Git.same_tree (Some content) (head_tree r)) eqn:E; [| reflexivity].
  apply same_tree_spec in E. congruence.
Qed.

(** With the real tool the no-changes note is out of reach of a save:
    the answer is the committed note or a commit failure. *)
Lemma save_never_reports_no_changes (form : Form) (w : World) (r : GitRepo) :
  repo w = Some r ->
  healthy w = true ->
  exists s w',
    save_and_commit Git.git form w = (Return (mk_response "success" s), w')
    /\ String.prefix "No changes detected" s = false.
Proof.
  intros R H. destruct (save_real form w r R H) as (w' & S & _).
  cbv zeta in S. destruct (Git.same_tree _ _); destruct S as [S _];
    eexists; exists w'; (split; [exact S | reflexivity]).
Qed.

(** C1, on the code.  In a bootstrapped, healthy repository, saving a
    content that differs from the last commit twice in a row is answered
    the first time with the committed note and the second time with
    [Git Commit Failed: ] and an empty detail: [git commit] exits with
    status 1 when there is nothing to commit, so the test for the
    no-changes note, made only under exit status 0, is never reached. *)
Theorem save_same_content_twice (w : World) (content : string) :
  bootstrapped w = true ->
  healthy w = true ->
  last_committed w <> Some content ->
  let form := [("content", content)] in
  exists w1 w2,
    save_and_commit Git.git form w
    = (Return (mk_response "success"
                 ("Change committed successfully! (Autosave: "
                  ++ strftime "%Y-%m-%d %H:%M:%S" (reading w) ++ ")")), w1)
    /\ save_and_commit Git.git form w1
       = (Return (mk_response "success" "Git Commit Failed: "), w2)
    /\ history w2 = history w1.
Proof.
  intros B H D form.
  destruct (bootstrapped_repo w B) as (r & R).
  destruct (save_real form w r R H) as (w1 & S1 & N1 & H1 & _).
  cbv zeta in S1. change (form_get "content" "" form) with content in S1.
  rewrite (differs_from_last_commit w r content R D) in S1.
  destruct S1 as [S1 R1].
  destruct (save_real form w1 _ R1 H1) as (w2 & S2 & _).
  cbv zeta in S2. change (form_get "content" "" form) with content in S2.
  assert (E : Git.same_tree (Some content)
                (head_tree (mk_repo (Some content)
                   (mk_commit ("Autosave: " ++ strftime "%Y-%m-%d %H:%M:%S" (reading w))
                      (Some content) :: log r))) = true)
    by (apply same_tree_spec; reflexivity).
  rewrite E in S2. destruct S2 as [S2 R2].
  exists w1, w2. split; [exact S1 |]. split; [exact S2 |].
  unfold history. rewrite R1, R2. reflexivity.
Qed.

(** C5. In a bootstrapped, healthy repository whose last commit does
    not hold [Hello], saving [Hello] writes exactly that to the note,
    creates a commit with the message [Autosave: <timestamp>] on top of
    the history, and answers with status [success] and the committed
    note; the timestamp has the shape [YYYY-MM-DD HH:MM:SS]. *)
Theorem save_hello_commits (w : World) :
  bootstrapped w = true ->
  healthy w = true ->
  last_committed w <> Some "Hello" ->
  valid_time (reading w) ->
  let timestamp := strftime "%Y-%m-%d %H:%M:%S" (reading w) in
  exists w',
    save_and_commit Git.git [("content", "Hello")] w
    = (Return (mk_response "success"
                 ("Change committed successfully! (Autosave: "
                  ++ timestamp ++ ")")), w')
    /\ is_timestamp timestamp = true
    /\ note w' = Some "Hello"
    /\ history w'
       = mk_commit ("Autosave: " ++ timestamp) (Some "Hello") :: history w.
Proof.
  intros B H D V timestamp.
  destruct (bootstrapped_repo w B) as (r & R).
  destruct (save_real [("content", "Hello")] w r R H) as (w' & S & N & _).
  cbv zeta in S. change (form_get "content" "" [("content", "Hello")]) with "Hello" in S, N.
  rewrite (differs_from_last_commit w r "Hello" R D) in S.
  destruct S as [S R'].
  exists w'. split; [exact S |]. split; [apply strftime_is_timestamp, V |].
  split; [exact N |].
  unfold history. rewrite R', R. reflexivity.
Qed.


Lemma note_set_repo (g : option GitRepo) (w : World) :
  note (set_repo g w) = note w.
Proof.
  unfold set_repo, note. destruct (fs w) eqn:F; [reflexivity |].
  rewrite F. reflexivity.
Qed.

Lemma add_all_keeps_note (w : World) : note (snd (Git.add_all w)) = note w.
Proof.
  unfold Git.add_all. destruct (repo w); [apply note_set_repo | reflexivity].
Qed.

Lemma commit_keeps_note (msg : string) (w : World) :
  note (snd (Git.commit msg w)) = note w.
Proof.
  unfold Git.commit.
  destruct (repo w); [| reflexivity].
  destruct (commit_fault w); [reflexivity |].
  destruct (Git.same_tree _ _); [reflexivity |].
  destruct (Git.blank msg); [reflexivity | apply note_set_repo].
Qed.

(** The real tool never touches the note. *)
Lemma run_git_commit_keeps_note (message : string) (w w' : World)
      (o : Outcome string) :
  run_git_commit Git.git message w = (o, w') -> note w' = note w.
Proof.
  intros H. apply run_git_commit_world in H. cbv zeta in H.
  assert (A : note (snd (Git.git git_add w)) = note w)
    by apply add_all_keeps_note.
  assert (C : note (snd (Git.git (git_commit message) (snd (Git.git git_add w))))
              = note w)
    by (rewrite <- A; apply commit_keeps_note).
  destruct H as [-> | [-> | [-> | ->]]];
    [reflexivity | exact A | exact C | exact C].
Qed.



Lemma bootstrapped_set_repo (r : GitRepo) (w : World) :
  bootstrapped w = true -> bootstrapped (set_repo (Some r) w) = true.
Proof.
  unfold bootstrapped, set_repo.
  destruct (fs w) as [[[g |] [c |]] |] eqn:F; try discriminate. reflexivity.
Qed.

Lemma add_all_keeps_bootstrapped (w : World) :
  bootstrapped w = true -> bootstrapped (snd (Git.add_all w)) = true.
Proof.
  intros B. unfold Git.add_all.
  destruct (repo w); [apply bootstrapped_set_repo, B | exact B].
Qed.

Lemma commit_keeps_bootstrapped (msg : string) (w : World) :
  bootstrapped w = true -> bootstrapped (snd (Git.commit msg w)) = true.
Proof.
  intros B. unfold Git.commit.
  destruct (repo w); [| exact B].
  destruct (commit_fault w); [exact B |].
  destruct (Git.same_tree _ _); [exact B |].
  destruct (Git.blank msg); [exact B | apply bootstrapped_set_repo, B].
Qed.

(** Committing keeps a bootstrapped repository bootstrapped. *)
Lemma run_git_commit_keeps_bootstrapped (message : string) (w w' : World)
      (o : Outcome string) :
  bootstrapped w = true ->
  run_git_commit Git.git message w = (o, w') ->
  bootstrapped w' = true.
Proof.
  intros B H. apply run_git_commit_world in H. cbv zeta in H.
  assert (A : bootstrapped (snd (Git.git git_add w)) = true)
    by apply add_all_keeps_bootstrapped, B.
  assert (C : bootstrapped
                (snd (Git.git (git_commit message) (snd (Git.git git_add w))))
              = true)
    by apply commit_keeps_bootstrapped, A.
  destruct H as [-> | [-> | [-> | ->]]];
    [exact B | exact A | exact C | exact C].
Qed.

(** A bootstrap that returns [True] leaves a bootstrapped repository, so
    a second one changes nothing. *)
Lemma setup_repo_bootstraps (w w' : World) :
  setup_repo Git.git w = (Return true, w') -> bootstrapped w' = true.
Proof.
  unfold setup_repo.
  remember (run_git_commit Git.git "Initial setup of the notebook file.")
    as commit eqn:Ec.
  destruct w as [gi [[[r |] [c |]] |] [[d | d] |] rf cf clk tk con];
    destruct gi; cbv -[bootstrapped]; try discriminate;
    try (intros H; inversion H; reflexivity).
  all: destruct (commit _) as [[s | e] w2] eqn:R; subst commit;
    apply run_git_commit_keeps_bootstrapped in R; try reflexivity;
    intros H; inversion H; subst; exact R.
Qed.

Lemma setup_repo_twice (w w' : World) :
  setup_repo Git.git w = (Return true, w') ->
  setup_repo Git.git w' = (Return true, w').
Proof.
  intros H. apply setup_repo_noop. exact (setup_repo_bootstraps w w' H).
Qed.

End RealTool.

(** ** The theorems at work on a concrete machine *)

(** Start-up in an empty directory creates the repository with the
    welcome note in its single commit (scenario A). *)
Example start_fresh :
  fst (start Git.git fresh_world) = Serving
  /\ note started_world = Some WELCOME
  /\ history started_world
     = [mk_commit "Initial setup of the notebook file." (Some WELCOME)]
  /\ bootstrapped started_world = true.
Proof. vm_compute. repeat split. Qed.

Example page_after_start :
  fst (handle Git.git bare_render "" GET_index started_world) = Html WELCOME.
Proof. vm_compute. reflexivity. Qed.

(** Two saves of [Hello], then the page. *)
Example session_hello_twice :
  fst (serve Git.git bare_render ""
         [POST_save [("content", "Hello")]; POST_save [("content", "Hello")];
          GET_index]
         started_world)
  = [Json (mk_response "success"
             "Change committed successfully! (Autosave: 2024-03-07 09:05:07)");
     Json (mk_response "success" "Git Commit Failed: ");
     Html "Hello"].
Proof. vm_compute. reflexivity. Qed.

Lemma save_same_content_twice_witness :
  exists w1 w2,
    save_and_commit Git.git [("content", "Hello")] started_world
    = (Return (mk_response "success"
                 ("Change committed successfully! (Autosave: "
                  ++ strftime "%Y-%m-%d %H:%M:%S" (reading started_world) ++ ")")),
       w1)
    /\ save_and_commit Git.git [("content", "Hello")] w1
       = (Return (mk_response "success" "Git Commit Failed: "), w2)
    /\ history w2 = history w1.
Proof.
  apply (save_same_content_twice started_world "Hello").
  - reflexivity.
  - reflexivity.
  - vm_compute. discriminate.
Defined.

Lemma save_write_failure_witness :
  let w := with_write_fault (OpenFails permission_denied) started_world in
  save_and_commit Git.git [("content", "Hello")] w
  = (Return (mk_response "error"
               ("File write failed: " ++ str_exn (OSError permission_denied))),
     tick w)
  /\ repo (tick w) = repo w
  /\ history (tick w) = history w.
Proof.
  apply (save_write_failure_skips_commit Git.git [("content", "Hello")]
           (with_write_fault (OpenFails permission_denied) started_world)).
  reflexivity.
Defined.

(** C3, as stated, fails: the note is written, the hook refuses the
    commit with a diagnostic that is no UTF-8, and the handler raises
    instead of answering; the client gets an error page.  So it does when
    [git] may not be executed. *)
Lemma save_raises_on_undecodable_output :
  fst (write_file NOTE_PATH "Hello" (tick started_world)) = Return tt
  /\ fst (save_and_commit hooked_git [("content", "Hello")] started_world)
     = Raise (UnicodeDecodeError "utf-8" hook_diagnostic 25 26
                "invalid continuation byte")
  /\ fst (handle hooked_git bare_render "" (POST_save [("content", "Hello")])
            started_world)
     = InternalServerError
         (UnicodeDecodeError "utf-8" hook_diagnostic 25 26
            "invalid continuation byte")
  /\ note (snd (save_and_commit hooked_git [("content", "Hello")] started_world))
     = Some "Hello"
  /\ fst (save_and_commit (system := locked_out) Git.git
            [("content", "Hello")] started_world)
     = Raise (OSError "[Errno 13] Permission denied: 'git'").
Proof. vm_compute. repeat split. Qed.

Lemma save_succeeds_witness :
  exists s w2,
    save_and_commit Git.git [("content", "Hello")] started_world
    = (Return (mk_response "success" s), w2)
    /\ s = "Change committed successfully! (Autosave: 2024-03-07 09:05:07)".
Proof.
  assert (T : speaks_text Git.git
                ("Autosave: "
                 ++ strftime "%Y-%m-%d %H:%M:%S" (reading started_world))
                (set_note (Some "Hello") (tick started_world)) = true)
    by (vm_compute; reflexivity).
  destruct (save_succeeds_whatever_commit_does (system := willing)
              Git.git [("content", "Hello")]
              started_world (set_note (Some "Hello") (tick started_world))
              eq_refl eq_refl T) as (s & w2 & E & _ & M).
  exists s, w2. split; [exact E |].
  edestruct M as (_ & Committed & _);
    [vm_compute; reflexivity | vm_compute; reflexivity |].
  apply Committed; reflexivity.
Defined.


Lemma save_hello_commits_witness :
  exists w',
    save_and_commit Git.git [("content", "Hello")] started_world
    = (Return (mk_response "success"
                 ("Change committed successfully! (Autosave: "
                  ++ strftime "%Y-%m-%d %H:%M:%S" (reading started_world) ++ ")")),
       w')
    /\ is_timestamp (strftime "%Y-%m-%d %H:%M:%S" (reading started_world)) = true
    /\ note w' = Some "Hello"
    /\ history w'
       = mk_commit ("Autosave: "
                    ++ strftime "%Y-%m-%d %H:%M:%S" (reading started_world))
           (Some "Hello") :: history started_world.
Proof.
  apply (save_hello_commits started_world).
  - reflexivity.
  - reflexivity.
  - vm_compute. discriminate.
  - unfold valid_time. vm_compute. intuition discriminate.
Defined.

Lemma setup_repo_idempotent_witness :
  setup_repo Git.git started_world = (Return true, started_world)
  /\ history (snd (setup_repo Git.git started_world)) = history started_world.
Proof.
  apply (setup_repo_idempotent Git.git started_world). reflexivity.
Defined.




(** C9, as stated, fails: a message with a NUL character cannot be
    handed to [git], a diagnostic that is no UTF-8 cannot be read, and a
    [git] that may not be executed cannot be launched; each of the three
    exceptions leaves [run_git_commit]. *)
Lemma run_git_commit_raises :
  fst (run_git_commit Git.git ("Autosave" ++ String "000" "") started_world)
  = Raise (ValueError "embedded null byte")
  /\ fst (run_git_commit hooked_git "Autosave: 2024-03-07 09:05:07"
            started_world)
     = Raise (UnicodeDecodeError "utf-8" hook_diagnostic 25 26
                "invalid continuation byte")
  /\ fst (run_git_commit (system := locked_out) Git.git
            "Autosave: 2024-03-07 09:05:07" started_world)
     = Raise (OSError "[Errno 13] Permission denied: 'git'").
Proof. vm_compute. repeat split. Qed.

Lemma run_git_commit_total_witness :
  run_git_commit Git.git "Autosave: 2024-03-07 09:05:07" (without_git started_world)
  = (Return "System error: Git executable not found.", without_git started_world).
Proof.
  assert (T : speaks_text Git.git "Autosave: 2024-03-07 09:05:07"
                (without_git started_world) = true)
    by (vm_compute; reflexivity).
  destruct (run_git_commit_total (system := willing)
              Git.git "Autosave: 2024-03-07 09:05:07"
              (without_git started_world) eq_refl eq_refl eq_refl T)
    as (s & w' & R & _ & _ & _ & G & _).
  destruct (G eq_refl) as [Es Ew]. rewrite Es, Ew in R. exact R.
Defined.

(** The disk fills up during the write: the client is told, the note is
    left truncated and the history is untouched. *)
Example save_on_full_disk :
  let w := with_write_fault (WriteFails "[Errno 28] No space left on device")
             started_world in
  fst (save_and_commit Git.git [("content", "Hello")] w)
  = Return (mk_response "error"
              "File write failed: [Errno 28] No space left on device")
  /\ note (snd (save_and_commit Git.git [("content", "Hello")] w)) = Some ""
  /\ history (snd (save_and_commit Git.git [("content", "Hello")] w))
     = history w.
Proof. vm_compute. repeat split. Qed.

(** The note has been deleted behind the back of the server. *)
Example page_without_note :
  fst (handle Git.git bare_render "" GET_index (set_note None started_world))
  = Html "Error loading file: [Errno 2] No such file or directory: 'notes_repo/my_first_note.md'".
Proof. vm_compute. reflexivity. Qed.

(** A save on a machine that has lost [git] is still a success for the
    client. *)
Example save_without_git :
  fst (handle Git.git bare_render "" (POST_save [("content", "Hello")])
         (without_git started_world))
  = Json (mk_response "success" "System error: Git executable not found.").
Proof. vm_compute. reflexivity. Qed.

(** ** More about the bootstrap *)

Section Bootstrap.

Lemma history_set_note (c : option string) (w : World) :
  history (set_note c w) = history w.
Proof. unfold history. rewrite repo_set_note. reflexivity. Qed.

Lemma history_set_repo (g : GitRepo) (w : World) (r : GitRepo) :
  repo w = Some r -> history (set_repo (Some g) w) = log g.
Proof.
  intros R. unfold history, set_repo, repo. rewrite (repo_inv w r R).
  reflexivity.
Qed.

(** [git add .] stages the note and leaves the history alone. *)
Lemma add_all_effect (w : World) :
  let wa := snd (Git.add_all w) in
  history wa = history w
  /\ last_committed wa = last_committed w
  /\ forall r', repo wa = Some r' -> staged r' = note w.
Proof.
  cbv zeta. unfold Git.add_all.
  destruct (repo w) as [r |] eqn:R; cbn [snd].
  - assert (Ra : repo (set_repo (Some (mk_repo (note w) (log r))) w)
                 = Some (mk_repo (note w) (log r))).
    { unfold set_repo, repo. rewrite (repo_inv w r R). reflexivity. }
    split; [| split].
    + rewrite (history_set_repo _ w r R). unfold history. rewrite R. reflexivity.
    + unfold last_committed. rewrite Ra, R. reflexivity.
    + intros r' E. rewrite Ra in E. inversion E. reflexivity.
  - split; [reflexivity |]. split; [reflexivity |].
    intros r' E. rewrite R in E. discriminate E.
Qed.

(** [git commit] leaves the history alone or records the staged content,
    which then differs from the last commit. *)
Lemma commit_effect (msg : string) (w : World) :
  history (snd (Git.commit msg w)) = history w
  \/ exists r,
      repo w = Some r
      /\ history (snd (Git.commit msg w)) = mk_commit msg (staged r) :: history w
      /\ head_tree r <> staged r.
Proof.
  unfold Git.commit.
  destruct (repo w) as [r |] eqn:R; [| left; reflexivity].
  destruct (commit_fault w); [left; reflexivity |].
  destruct (Git.same_tree (staged r) (head_tree r)) eqn:T; [left; reflexivity |].
  destruct (Git.blank msg); [left; reflexivity |].
  right. exists r. split; [reflexivity |]. cbn [snd]. split.
  - rewrite (history_set_repo _ w r R). unfold history. rewrite R. reflexivity.
  - intros E. symmetry in E. apply same_tree_spec in E. congruence.
Qed.

(** What [run_git_commit] with the real tool does to the note and to the
    history, in any world and whatever comes of it: the note is left
    alone, and the history stays or gains one commit that records the note
    under the given message. *)
Lemma run_git_commit_effect (message : string) (w w' : World)
      (o : Outcome string) :
  run_git_commit Git.git message w = (o, w') ->
  note w' = note w
  /\ (history w' = history w
      \/ history w' = mk_commit message (note w) :: history w
         /\ last_committed w <> note w).
Proof.
  intros H. split; [exact (run_git_commit_keeps_note _ _ _ _ H) |].
  apply run_git_commit_world in H. cbv zeta in H.
  change (Git.git git_add w) with (Git.add_all w) in H.
  change (Git.git (git_commit message) (snd (Git.add_all w)))
    with (Git.commit message (snd (Git.add_all w))) in H.
  destruct (add_all_effect w) as (Ha & La & Sa).
  assert (C : history (snd (Git.commit message (snd (Git.add_all w))))
              = history w
              \/ history (snd (Git.commit message (snd (Git.add_all w))))
                 = mk_commit message (note w) :: history w
                 /\ last_committed w <> note w).
  { destruct (commit_effect message (snd (Git.add_all w)))
      as [E | (r & R & E & D)].
    - left. rewrite E. exact Ha.
    - right. rewrite E, Ha, (Sa r R). split; [reflexivity |].
      rewrite <- La. unfold last_committed. rewrite R, <- (Sa r R). exact D. }
  destruct H as [-> | [-> | [-> | ->]]]; auto.
Qed.

(** X1. In a place with neither [.git] nor note, on a healthy machine,
    [setup_repo] creates the directory if it is missing, initialises the
    repository, writes the welcome text and records it in a first commit;
    it prints one line for each of the first two steps and returns
    [True]. *)
Theorem setup_repo_fresh (w : World) :
  repo w = None ->
  note w = None ->
  healthy w = true ->
  exists w',
    setup_repo Git.git w = (Return true, w')
    /\ note w' = Some WELCOME
    /\ history w'
       = [mk_commit "Initial setup of the notebook file." (Some WELCOME)]
    /\ console w'
       = (console w
          ++ match fs w with
             | None => ["Created directory: notes_repo"]
             | Some _ => []
             end
          ++ ["Initialized Git repository in notes_repo"])%list.
Proof.
  intros R N H. destruct (healthy_inv w H) as (G & W & C).
  set (first_commit :=
         mk_commit "Initial setup of the notebook file." (Some WELCOME)).
  set (made := Some (mk_dir (Some (mk_repo (Some WELCOME) [first_commit]))
                       (Some WELCOME))).
  destruct w as [gi [[g n] |] wf rf cf clk tk con];
    cbn in R, N, G, W, C; subst.
  - exists (mk_world true made None rf None clk tk
              (con ++ ["Initialized Git repository in notes_repo"])).
    split; [vm_compute; reflexivity |]. repeat split.
  - exists (mk_world true made None rf None clk tk
              ((con ++ ["Created directory: notes_repo"])
               ++ ["Initialized Git repository in notes_repo"])).
    split; [vm_compute; reflexivity |]. repeat split.
    cbn [console fs]. rewrite <- app_assoc. reflexivity.
Qed.

(** X2. When [git init] exits with a non-zero status, [setup_repo] prints
    [Error initializing Git: <the exception>] and returns [False], and the
    process prints the failure line and exits with status 1. *)
Theorem setup_repo_init_fails
        (tool : list string -> World -> CompletedProcess * World)
        (w w1 : World) (d : RepoDir) (result : CompletedProcess) :
  fs w = Some d ->
  dot_git d = None ->
  git_installed w = true ->
  tool ["git"; "init"] w = (result, w1) ->
  returncode result <> 0 ->
  let e := CalledProcessError (returncode result) ["git"; "init"]
             (stdout result) (stderr result) in
  let w2 := set_console (console w1 ++ ["Error initializing Git: " ++ str_exn e]) w1 in
  setup_repo tool w = (Return false, w2)
  /\ start tool w
     = (Exited 1,
        set_console
          (console w2
           ++ ["Application failed to set up the Git repository. Exiting."]) w2)
  /\ (0 < returncode result ->
      str_exn e
      = "Command '['git', 'init']' returned non-zero exit status "
        ++ PyStr.decimal (returncode result) ++ ".").
Proof.
  intros F D G T NZ e w2.
  assert (S : setup_repo tool w = (Return false, w2)).
  { unfold setup_repo, bind.
    rewrite os_path_exists_repo_dir, F. cbn [negb ret].
    rewrite os_path_exists_dot_git. unfold repo at 1. rewrite F, D. cbn [negb].
    unfold try_except, bind.
    rewrite subprocess_run_in_repo, F, G, T by reflexivity.
    cbn [communicate returncode].
    apply Z.eqb_neq in NZ. rewrite NZ. reflexivity. }
  split; [exact S |]. split.
  - unfold start, module_body, bind. rewrite S. reflexivity.
  - intros P. unfold e, str_exn.
    replace (returncode result <? 0) with false
      by (symmetry; apply Z.ltb_ge; lia).
    reflexivity.
Qed.

(** X3. The first write of the note is not guarded: when it fails,
    [setup_repo] lets the exception through and the process ends with
    status 1.  What the steps before the write printed stays printed, the
    line of a failed set-up is not, and nothing is committed.  If [open]
    was refused there is still no note, and the next start fails in the
    same way; if the failure came after the file was opened, an empty note
    is left behind, and the next [setup_repo] returns [True] without
    writing the welcome text. *)
Theorem setup_repo_write_fails (w : World) (f : write_fault) :
  note w = None ->
  note_write_fault w = Some f ->
  (repo w = None -> git_installed w = true) ->
  exists w1,
    setup_repo Git.git w = (Raise (OSError (fault_detail f)), w1)
    /\ start Git.git w = (Exited 1, w1)
    /\ console w1
       = (console w
          ++ match fs w with
             | None => ["Created directory: notes_repo"]
             | Some _ => []
             end
          ++ match repo w with
             | None => ["Initialized Git repository in notes_repo"]
             | Some _ => []
             end)%list
    /\ history w1 = history w
    /\ match f with
       | OpenFails _ =>
           note w1 = None
           /\ setup_repo Git.git w1 = (Raise (OSError (fault_detail f)), w1)
       | WriteFails _ =>
           note w1 = Some "" /\ setup_repo Git.git w1 = (Return true, w1)
       end.
Proof.
  intros N W G.
  set (left_behind := match f with OpenFails _ => None | WriteFails _ => Some "" end).
  destruct w as [gi [[[r |] n] |] wf rf cf clk tk con];
    cbn in N, W, G; subst;
    try (specialize (G eq_refl); subst gi).
  - exists (mk_world gi (Some (mk_dir (Some r) left_behind)) (Some f)
              rf cf clk tk con).
    destruct f as [d | d];
      (split; [vm_compute; reflexivity |]);
      (split; [vm_compute; reflexivity |]);
      (split; [cbn [console fs repo dot_git]; rewrite !app_nil_r; reflexivity |]);
      (split; [reflexivity |]); (split; [reflexivity |]);
      vm_compute; reflexivity.
  - exists (mk_world true (Some (mk_dir (Some (mk_repo None [])) left_behind))
              (Some f) rf cf clk tk
              (con ++ ["Initialized Git repository in notes_repo"])).
    destruct f as [d | d];
      (split; [vm_compute; reflexivity |]);
      (split; [vm_compute; reflexivity |]);
      (split; [reflexivity |]);
      (split; [reflexivity |]); (split; [reflexivity |]);
      vm_compute; reflexivity.
  - exists (mk_world true (Some (mk_dir (Some (mk_repo None [])) left_behind))
              (Some f) rf cf clk tk
              ((con ++ ["Created directory: notes_repo"])
               ++ ["Initialized Git repository in notes_repo"])).
    destruct f as [d | d];
      (split; [vm_compute; reflexivity |]);
      (split; [vm_compute; reflexivity |]);
      (split; [cbn [console fs repo]; rewrite <- app_assoc; reflexivity |]);
      (split; [reflexivity |]); (split; [reflexivity |]);
      vm_compute; reflexivity.
Qed.



(** X5. [setup_repo] never touches a note that is already there: whatever
    it returns, the note and the history are the ones it found. *)
Theorem setup_repo_keeps_existing_note
        (w w' : World) (o : Outcome bool) (c : string) :
  note w = Some c ->
  setup_repo Git.git w = (o, w') ->
  note w' = Some c /\ history w' = history w.
Proof.
  intros N.
  destruct w as [gi [[[r |] n] |] wf rf cf clk tk con];
    cbn in N; try discriminate; subst n; destruct gi;
    vm_compute; intros H; inversion H; subst; split; reflexivity.
Qed.

(** X6. When [setup_repo] returns [True], directory, [.git] and note are
    all in place, the history is the old one or the old one with the
    first commit of the welcome text on top, and calling it again
    changes nothing. *)
Theorem setup_repo_postcondition (w w' : World) :
  setup_repo Git.git w = (Return true, w') ->
  bootstrapped w' = true
  /\ (history w' = history w
      \/ history w'
         = mk_commit "Initial setup of the notebook file." (Some WELCOME)
             :: history w)
  /\ setup_repo Git.git w' = (Return true, w').
Proof.
  intros S. split; [exact (setup_repo_bootstraps w w' S) |].
  split; [| exact (setup_repo_twice w w' S)].
  revert S. unfold setup_repo.
  remember (run_git_commit Git.git "Initial setup of the notebook file.")
    as commit eqn:Ec.
  destruct w as [gi [[[r |] [c |]] |] [[d | d] |] rf cf clk tk con];
    destruct gi; cbv -[history]; try discriminate;
    try (intros H; inversion H; left; reflexivity).
  all: destruct (commit _) as [[s | e] w2] eqn:R; subst commit;
    apply run_git_commit_effect in R; destruct R as [_ [R | [R _]]];
    intros H; inversion H; subst; [left | right]; exact R.
Qed.

End Bootstrap.

(** ** More about saving *)

Section Saving.

Variable render_template_string : string -> list (string * string) -> string.
Variable HTML_TEMPLATE : string.

Lemma frame_refl (w : World) : w = set_ticks (ticks w) (set_repo (repo w) w).
Proof. destruct w as [gi [[g n] |] wf rf cf clk tk con]; reflexivity. Qed.

Lemma frame_set_repo (g : option GitRepo) (w w1 : World) :
  w1 = set_ticks (ticks w1) (set_repo (repo w1) w) ->
  set_repo g w1
  = set_ticks (ticks (set_repo g w1)) (set_repo (repo (set_repo g w1)) w).
Proof.
  destruct w as [gi [[g0 n0] |] wf rf cf clk tk con],
           w1 as [gi1 [[g1 n1] |] wf1 rf1 cf1 clk1 tk1 con1];
    cbn; intros H; inversion H; subst; reflexivity.
Qed.

Lemma frame_tick (w w1 : World) :
  w1 = set_ticks (ticks w1) (set_repo (repo w1) w) ->
  tick w1 = set_ticks (ticks (tick w1)) (set_repo (repo (tick w1)) w).
Proof.
  destruct w as [gi [[g0 n0] |] wf rf cf clk tk con],
           w1 as [gi1 [[g1 n1] |] wf1 rf1 cf1 clk1 tk1 con1];
    cbn; intros H; inversion H; subst; reflexivity.
Qed.

Lemma add_all_world (w : World) :
  snd (Git.add_all w) = w \/ exists g, snd (Git.add_all w) = set_repo (Some g) w.
Proof. unfold Git.add_all. destruct (repo w); cbn [snd]; eauto. Qed.

Lemma commit_world (msg : string) (w : World) :
  snd (Git.commit msg w) = w
  \/ exists g, snd (Git.commit msg w) = set_repo (Some g) w.
Proof.
  unfold Git.commit.
  destruct (repo w); [| auto].
  destruct (commit_fault w); [auto |].
  destruct (Git.same_tree _ _); [auto |].
  destruct (Git.blank msg); cbn [snd]; eauto.
Qed.

(** The real tool changes the metadata under [.git] and nothing else;
    [run_git_commit] may read the clock besides. *)
Lemma run_git_commit_frame (message : string) (w w' : World)
      (o : Outcome string) :
  run_git_commit Git.git message w = (o, w') ->
  w' = set_ticks (ticks w') (set_repo (repo w') w).
Proof.
  intros H. apply run_git_commit_world in H. cbv zeta in H.
  change (Git.git git_add w) with (Git.add_all w) in H.
  change (Git.git (git_commit message) (snd (Git.add_all w)))
    with (Git.commit message (snd (Git.add_all w))) in H.
  assert (A : snd (Git.add_all w)
              = set_ticks (ticks (snd (Git.add_all w)))
                  (set_repo (repo (snd (Git.add_all w))) w)).
  { destruct (add_all_world w) as [-> | (g & ->)];
      [apply frame_refl | apply frame_set_repo, frame_refl]. }
  assert (C : snd (Git.commit message (snd (Git.add_all w)))
              = set_ticks (ticks (snd (Git.commit message (snd (Git.add_all w)))))
                  (set_repo (repo (snd (Git.commit message (snd (Git.add_all w))))) w)).
  { destruct (commit_world message (snd (Git.add_all w))) as [-> | (g & ->)];
      [exact A | apply frame_set_repo, A]. }
  destruct H as [-> | [-> | [-> | ->]]];
    [apply frame_refl | exact A | exact C | apply frame_tick, C].
Qed.

Lemma write_file_effect (content : string) (w w1 : World) (o : Outcome unit) :
  write_file NOTE_PATH content w = (o, w1) ->
  history w1 = history w
  /\ last_committed w1 = last_committed w
  /\ (bootstrapped w = true -> bootstrapped w1 = true)
  /\ (o = Return tt -> note w1 = Some content).
Proof.
  rewrite write_file_note.
  destruct w as [gi [[g n] |] [[d | d] |] rf cf clk tk con];
    intros H; inversion H; subst; repeat split; try discriminate;
    try (intros B; exact B);
    unfold bootstrapped; cbn; destruct g; intros; congruence.
Qed.

Lemma save_appends_at_most_one_aux (form : Form) (w : World) :
  history (snd (save_and_commit Git.git form w)) = history w
  \/ exists c,
      history (snd (save_and_commit Git.git form w)) = c :: history w.
Proof.
  rewrite save_and_commit_unfold.
  destruct (write_file NOTE_PATH (form_get "content" "" form) (tick w))
    as [[[] | e] w1] eqn:W;
    apply write_file_effect in W as (Hh & _);
    change (history (tick w)) with (history w) in Hh.
  - destruct (run_git_commit Git.git _ w1) as [[s | e] w2] eqn:R;
      apply run_git_commit_effect in R as (_ & [S | [S _]]); cbn [snd];
      rewrite Hh in S; eauto.
  - destruct (is_Exception e); left; exact Hh.
Qed.

(** X7. Whatever the state of the machine, a save leaves the history as
    it was or puts exactly one commit on top of it; the new commit has the
    autosave message of the request and records the content just written,
    which differs from what the last commit held. *)
Theorem save_appends_at_most_one (form : Form) (w : World) :
  let content := form_get "content" "" form in
  let commit_message :=
    "Autosave: " ++ strftime "%Y-%m-%d %H:%M:%S" (reading w) in
  let w' := snd (save_and_commit Git.git form w) in
  history w' = history w
  \/ history w' = mk_commit commit_message (Some content) :: history w
     /\ note w' = Some content
     /\ last_committed w <> Some content.
Proof.
  intros content commit_message. cbv zeta.
  rewrite save_and_commit_unfold. fold content. fold commit_message.
  destruct (write_file NOTE_PATH content (tick w)) as [[[] | e] w1] eqn:W;
    apply write_file_effect in W as (Hh & Hl & _ & Hn);
    change (history (tick w)) with (history w) in Hh;
    change (last_committed (tick w)) with (last_committed w) in Hl.
  - specialize (Hn eq_refl).
    destruct (run_git_commit Git.git commit_message w1) as [[s | e] w2] eqn:R;
      apply run_git_commit_effect in R as (N & [S | [S D]]); cbn [snd];
      rewrite Hn in *; rewrite Hh in S;
      try (left; exact S); right; rewrite <- Hl; auto.
  - destruct (is_Exception e); left; exact Hh.
Qed.

Lemma handle_get_world (w : World) :
  snd (handle Git.git render_template_string HTML_TEMPLATE GET_index w) = w.
Proof.
  unfold handle. rewrite index_unfold.
  pose proof (read_file_pure NOTE_PATH w) as P.
  destruct (read_file NOTE_PATH w) as [[c | e] w'];
    [| destruct (is_Exception e)]; exact P.
Qed.

Lemma handle_post_world (form : Form) (w : World) :
  snd (handle Git.git render_template_string HTML_TEMPLATE (POST_save form) w)
  = snd (save_and_commit Git.git form w).
Proof.
  unfold handle. destruct (save_and_commit Git.git form w) as [[r | e] w'];
    reflexivity.
Qed.

Lemma save_keeps_bootstrapped (form : Form) (w : World) :
  bootstrapped w = true ->
  bootstrapped (snd (save_and_commit Git.git form w)) = true.
Proof.
  intros B. rewrite save_and_commit_unfold.
  destruct (write_file NOTE_PATH (form_get "content" "" form) (tick w))
    as [[[] | e] w1] eqn:W;
    apply write_file_effect in W as (_ & _ & B1 & _); specialize (B1 B).
  - destruct (run_git_commit Git.git _ w1) as [[s | e] w2] eqn:R;
      exact (run_git_commit_keeps_bootstrapped _ _ _ _ B1 R).
  - destruct (is_Exception e); exact B1.
Qed.

(** X8. Once directory, [.git] and note exist, no sequence of requests
    makes any of them disappear, whatever goes wrong while serving. *)
Theorem session_keeps_bootstrapped (reqs : list Request) (w : World) :
  bootstrapped w = true ->
  bootstrapped
    (snd (serve Git.git render_template_string HTML_TEMPLATE reqs w)) = true.
Proof.
  revert w. induction reqs as [| req reqs IH]; intros w B; [exact B |].
  cbn [serve].
  destruct (handle Git.git render_template_string HTML_TEMPLATE req w)
    as [reply w1] eqn:E.
  specialize (IH w1).
  destruct (serve Git.git render_template_string HTML_TEMPLATE reqs w1)
    as [replies w2].
  cbn [snd] in *. apply IH.
  replace w1
    with (snd (handle Git.git render_template_string HTML_TEMPLATE req w))
    by (rewrite E; reflexivity).
  destruct req as [| form].
  - rewrite handle_get_world. exact B.
  - rewrite handle_post_world. apply save_keeps_bootstrapped, B.
Qed.

(** X9. The history only grows: after any session it is the old history
    below new commits, no more of them than there were saves. *)
Theorem session_appends_commits (reqs : list Request) (w : World) :
  exists new,
    history (snd (serve Git.git render_template_string HTML_TEMPLATE reqs w))
    = (new ++ history w)%list
    /\ (length new <= length (filter is_save reqs))%nat.
Proof.
  revert w. induction reqs as [| req reqs IH]; intros w.
  - exists []. split; [reflexivity | apply le_n].
  - cbn [serve].
    destruct (handle Git.git render_template_string HTML_TEMPLATE req w)
      as [reply w1] eqn:E.
    destruct (IH w1) as (new & Hn & Ln).
    destruct (serve Git.git render_template_string HTML_TEMPLATE reqs w1)
      as [replies w2].
    cbn [snd] in *.
    assert (W1 : w1 = snd (handle Git.git render_template_string
                             HTML_TEMPLATE req w))
      by (rewrite E; reflexivity).
    destruct req as [| form]; cbn [filter is_save length].
    + rewrite handle_get_world in W1. subst w1. exists new. auto.
    + rewrite handle_post_world in W1.
      destruct (save_appends_at_most_one_aux form w) as [S | (c & S)];
        rewrite <- W1 in S; rewrite S in Hn.
      * exists new. split; [exact Hn | lia].
      * exists (new ++ [c])%list. rewrite <- app_assoc. split; [exact Hn |].
        rewrite length_app. cbn [length]. lia.
Qed.

End Saving.

Section SavingOutcomes.

Variable render_template_string : string -> list (string * string) -> string.
Variable HTML_TEMPLATE : string.

(** X10. After a save in an initialised repository on a healthy machine,
    the note and the last commit both hold exactly the content sent,
    whether or not a new commit was needed. *)
Theorem save_makes_head_match_note (form : Form) (w : World) (r : GitRepo) :
  repo w = Some r ->
  healthy w = true ->
  let w' := snd (save_and_commit Git.git form w) in
  note w' = Some (form_get "content" "" form)
  /\ last_committed w' = Some (form_get "content" "" form).
Proof.
  intros R H. destruct (save_real form w r R H) as (w' & S & N & _).
  cbv zeta in S |- *.
  destruct (Git.same_tree _ _) eqn:T; destruct S as [S R'];
    rewrite S; cbn [snd]; (split; [exact N |]);
    unfold last_committed; rewrite R'; [| reflexivity].
  apply same_tree_spec in T. symmetry. exact T.
Qed.

(** X11. Two saves with different contents, the first of them new, give
    two commits in the order of the saves, each with the content and the
    timestamp of its request. *)
Theorem save_two_contents (w : World) (r : GitRepo) (c1 c2 : string) :
  repo w = Some r ->
  healthy w = true ->
  last_committed w <> Some c1 ->
  c1 <> c2 ->
  let message1 :=
    "Autosave: " ++ strftime "%Y-%m-%d %H:%M:%S" (clock w (ticks w)) in
  let message2 :=
    "Autosave: " ++ strftime "%Y-%m-%d %H:%M:%S" (clock w (S (ticks w))) in
  exists w1 w2,
    save_and_commit Git.git [("content", c1)] w
    = (Return (mk_response "success"
                 ("Change committed successfully! (" ++ message1 ++ ")")), w1)
    /\ save_and_commit Git.git [("content", c2)] w1
       = (Return (mk_response "success"
                    ("Change committed successfully! (" ++ message2 ++ ")")), w2)
    /\ history w2
       = mk_commit message2 (Some c2) :: mk_commit message1 (Some c1)
           :: history w.
Proof.
  intros R H D N message1 message2.
  destruct (save_real [("content", c1)] w r R H) as (w1 & S1 & _ & H1 & C1 & T1).
  cbv zeta in S1. change (form_get "content" "" [("content", c1)]) with c1 in S1.
  rewrite (differs_from_last_commit w r c1 R D) in S1. destruct S1 as [S1 R1].
  destruct (save_real [("content", c2)] w1 _ R1 H1) as (w2 & S2 & _).
  cbv zeta in S2. change (form_get "content" "" [("content", c2)]) with c2 in S2.
  assert (E : Git.same_tree (Some c2)
                (head_tree (mk_repo (Some c1)
                   (mk_commit ("Autosave: " ++ strftime "%Y-%m-%d %H:%M:%S" (reading w))
                      (Some c1) :: log r))) = false).
  { destruct (Git.same_tree _ _) eqn:T; [| reflexivity].
    apply same_tree_spec in T. cbn in T. congruence. }
  rewrite E in S2. destruct S2 as [S2 R2].
  unfold reading in S2, R2. rewrite C1, T1 in S2, R2.
  exists w1, w2. split; [exact S1 |]. split; [exact S2 |].
  unfold history. rewrite R2, R. reflexivity.
Qed.

(** X12. When [git commit] dies with a diagnostic that is text, the save
    is still answered with status [success], the message quoting the
    diagnostic as Python reads it, line endings translated, without the
    white space around it; the note on disk has the new content, but the
    history has not moved. *)
Theorem save_with_failing_commit
        (form : Form) (w : World) (r : GitRepo) (detail : string) :
  repo w = Some r ->
  git_installed w = true ->
  note_write_fault w = None ->
  commit_fault w = Some detail ->
  PyStr.utf8 detail = true ->
  exists w',
    save_and_commit Git.git form w
    = (Return (mk_response "success"
                 ("Git Commit Failed: "
                  ++ PyStr.strip (PyStr.universal_newlines detail))), w')
    /\ note w' = Some (form_get "content" "" form)
    /\ history w' = history w.
Proof.
  intros R G W C U.
  set (content := form_get "content" "" form).
  set (w1 := set_note (Some content) (tick w)).
  set (wa := set_repo (Some (mk_repo (Some content) (log r))) w1).
  assert (F : fs w = Some (mk_dir (Some r) (note w))) by exact (repo_inv w r R).
  assert (E1 : write_file NOTE_PATH content (tick w) = (Return tt, w1)).
  { rewrite write_file_note.
    change (note_write_fault (tick w)) with (note_write_fault w).
    change (fs (tick w)) with (fs w). rewrite W, F. reflexivity. }
  assert (F1 : fs w1 = Some (mk_dir (Some r) (Some content))).
  { unfold w1, set_note. change (fs (tick w)) with (fs w). rewrite F.
    reflexivity. }
  assert (R1 : repo w1 = Some r) by (unfold repo; rewrite F1; reflexivity).
  assert (N1 : note w1 = Some content) by (unfold note; rewrite F1; reflexivity).
  assert (G1 : git_installed w1 = true).
  { unfold w1, set_note. change (fs (tick w)) with (fs w). rewrite F. exact G. }
  assert (C1 : commit_fault w1 = Some detail).
  { unfold w1, set_note. change (fs (tick w)) with (fs w). rewrite F. exact C. }
  assert (Fa : fs wa = Some (mk_dir (Some (mk_repo (Some content) (log r)))
                               (Some content))).
  { unfold wa, set_repo. rewrite F1. reflexivity. }
  assert (Ga : git_installed wa = true)
    by (unfold wa, set_repo; rewrite F1; exact G1).
  assert (Ca : commit_fault wa = Some detail)
    by (unfold wa, set_repo; rewrite F1; exact C1).
  assert (P : PyStr.lacks "000"
                ("Autosave: " ++ strftime "%Y-%m-%d %H:%M:%S" (reading w)) = true)
    by (apply print_lacks; [reflexivity | apply autosave_print]).
  exists wa.
  rewrite save_and_commit_unfold. fold content. rewrite E1.
  rewrite run_git_commit_unfold, (git_add_real w1 r R1 G1), N1. fold wa.
  rewrite subprocess_run_in_repo
    by (cbn [git_commit forallb]; rewrite P; reflexivity).
  rewrite Fa, Ga. cbn [Git.git git_commit]. unfold Git.commit, repo.
  rewrite Fa. cbn [dot_git]. rewrite Ca.
  rewrite communicate_readable
    by (unfold readable; cbn [stdout stderr]; rewrite as_text_utf8; reflexivity).
  cbn [andb]. unfold report. cbn [returncode stdout stderr Z.eqb].
  unfold Git.as_text. rewrite U.
  split; [reflexivity |]. split.
  - unfold note. rewrite Fa. reflexivity.
  - unfold history, repo. rewrite Fa, F. reflexivity.
Qed.


(** X14. What is saved is what the page shows next: after a save whose
    write succeeds, with the note readable, the page is rendered with the
    saved content, its line endings turned into line feeds; a content
    without carriage returns comes back unchanged. *)
Theorem save_then_page (form : Form) (w : World) :
  fs w <> None ->
  note_write_fault w = None ->
  note_read_fault w = None ->
  let content := form_get "content" "" form in
  let w' := snd (save_and_commit Git.git form w) in
  index render_template_string HTML_TEMPLATE w'
  = (Return (render_template_string HTML_TEMPLATE
               [("note_content", PyStr.universal_newlines content)]), w')
  /\ (PyStr.lacks "013" content = true ->
      PyStr.universal_newlines content = content).
Proof.
  intros F W Rd content w'.
  split; [| apply universal_newlines_without_cr].
  assert (N : note w' = Some content /\ note_read_fault w' = None).
  { unfold w'. rewrite save_and_commit_unfold, write_file_note.
    fold content.
    replace (note_write_fault (tick w)) with (@None write_fault)
      by (symmetry; exact W).
    replace (fs (tick w)) with (fs w) by reflexivity.
    destruct (fs w) as [d |] eqn:E; [| contradiction].
    destruct (run_git_commit Git.git _ (set_note (Some content) (tick w)))
      as [[s | e] w2] eqn:R; cbn [snd];
      pose proof (run_git_commit_keeps_note _ _ _ _ R) as K;
      apply run_git_commit_frame in R;
      (split; [rewrite K; unfold set_note, note;
               replace (fs (tick w)) with (fs w) by reflexivity;
               rewrite E; reflexivity |]);
      rewrite R; unfold set_repo, set_note;
      replace (fs (tick w)) with (fs w) by reflexivity; rewrite E;
      cbn; exact Rd. }
  destruct N as [N Rf].
  rewrite index_unfold, read_file_note, Rf, N. reflexivity.
Qed.

End SavingOutcomes.

(** ** The script of the page: debouncing *)

Section Debounce.

Import Client.
Local Open Scope N_scope.

Lemma fire_effect (timers : list (N * N)) (p : Page) :
  armed (fire timers p) = armed p
  /\ saveTimer (fire timers p) = saveTimer p
  /\ next_handle (fire timers p) = next_handle p
  /\ editor_value (fire timers p) = editor_value p
  /\ length (fetched (fire timers p))
     = (length (fetched p) + length timers)%nat.
Proof.
  revert p. induction timers as [| [h d] rest IH]; intros p; cbn [fire].
  - repeat split. cbn. lia.
  - destruct (IH (saveContent (set_now d p))) as (A & T & X & V & F).
    rewrite A, T, X, V, F. repeat split.
    cbn. rewrite length_app. cbn. lia.
Qed.

Lemma filter_split_length {A} (f : A -> bool) (l : list A) :
  (length (filter f l) + length (filter (fun x => negb (f x)) l))%nat = length l.
Proof.
  induction l as [| x l IH]; [reflexivity |].
  cbn. destruct (f x); cbn; lia.
Qed.

Lemma elapse_effect (ms : N) (p : Page) :
  armed (elapse ms p) = filter (fun timer => negb (due (now_ms p + ms) timer)) (armed p)
  /\ saveTimer (elapse ms p) = saveTimer p
  /\ next_handle (elapse ms p) = next_handle p
  /\ editor_value (elapse ms p) = editor_value p
  /\ now_ms (elapse ms p) = now_ms p + ms
  /\ (length (fetched (elapse ms p)) + length (armed (elapse ms p))
      = length (fetched p) + length (armed p))%nat.
Proof.
  unfold elapse.
  set (t := now_ms p + ms).
  set (q := set_armed (filter (fun timer => negb (due t timer)) (armed p)) p).
  destruct (fire_effect (filter (due t) (armed p)) q) as (A & T & X & V & F).
  cbn [armed saveTimer next_handle editor_value now_ms fetched set_now].
  rewrite A, T, X, V, F. repeat split.
  cbn [q armed fetched set_armed].
  pose proof (filter_split_length (due t) (armed p)). lia.
Qed.

Lemma filter_all {A} (f : A -> bool) (l : list A) :
  forallb f l = true -> filter f l = l.
Proof.
  induction l as [| x l IH]; cbn; [reflexivity |].
  destruct (f x); cbn; [| discriminate]. intros Q. rewrite IH; auto.
Qed.

Lemma filter_none {A} (f : A -> bool) (l : list A) :
  forallb (fun x => negb (f x)) l = true -> filter f l = [].
Proof.
  induction l as [| x l IH]; cbn; [reflexivity |].
  destruct (f x); cbn; [discriminate | exact IH].
Qed.

(** Nothing is due yet: time passes and that is all. *)
Lemma elapse_quiet (ms : N) (p : Page) :
  forallb (fun timer => negb (due (now_ms p + ms) timer)) (armed p) = true ->
  elapse ms p = set_now (now_ms p + ms) p.
Proof.
  intros Q. unfold elapse.
  pose proof (filter_all _ _ Q) as K.
  pose proof (filter_none (due (now_ms p + ms)) _ Q) as D.
  rewrite K, D. destruct p; reflexivity.
Qed.

Lemma keyup_rearms (after : N) (value : string) (p : Page) :
  just_armed p ->
  after < SAVE_DELAY_MS ->
  let p' := step (Keyup after value) p in
  just_armed p' /\ fetched p' = fetched p
  /\ now_ms p' = now_ms p + after /\ editor_value p' = value.
Proof.
  intros (h & A & T & H0 & X0) L. cbn [step].
  rewrite elapse_quiet
    by (rewrite A; cbn; unfold due; cbn [snd];
        replace (now_ms p + SAVE_DELAY_MS <=? now_ms p + after) with false
          by (symmetry; apply N.leb_gt; lia);
        reflexivity).
  destruct p as [v txt cls st ar nx now fe aw er]. cbn in A, T, H0, X0. subst.
  unfold on_keyup, set_value, set_now, truthy, clearTimeout.
  cbn -[N.add N.eqb SAVE_DELAY_MS just_armed].
  replace (h =? 0) with false by (symmetry; apply N.eqb_neq; exact H0).
  rewrite N.eqb_refl.
  cbn -[N.add N.eqb SAVE_DELAY_MS just_armed].
  repeat split. exists nx. repeat split; auto. cbn. lia.
Qed.

Lemma first_keyup_arms (after : N) (value : string) (p : Page) :
  armed p = [] ->
  next_handle p <> 0 ->
  let p' := step (Keyup after value) p in
  just_armed p' /\ fetched p' = fetched p
  /\ now_ms p' = now_ms p + after /\ editor_value p' = value.
Proof.
  intros A X0. cbn [step].
  rewrite elapse_quiet by (rewrite A; reflexivity).
  destruct p as [v txt cls st ar nx now fe aw er]. cbn in A, X0. subst.
  unfold on_keyup, set_value, set_now, truthy, clearTimeout, setTimeout.
  destruct st as [h |]; cbn -[N.add N.eqb SAVE_DELAY_MS just_armed];
    [destruct (h =? 0); cbn -[N.add N.eqb SAVE_DELAY_MS just_armed] |];
    (split; [exists nx; repeat split; try reflexivity; auto; cbn; lia
            | repeat split]).
Qed.

Lemma run_cons (e : Event) (events : list Event) (p : Page) :
  run (e :: events) p = run events (step e p).
Proof. reflexivity. Qed.

Lemma run_app (events more : list Event) (p : Page) :
  run (events ++ more) p = run more (run events p).
Proof. apply fold_left_app. Qed.

Lemma last_cons {A} (x d : A) (l : list A) : last (x :: l) d = last l x.
Proof.
  revert x d. induction l as [| y l IH]; intros x d; [reflexivity |].
  change (last (x :: y :: l) d) with (last (y :: l) d).
  rewrite (IH y d), (IH y x). reflexivity.
Qed.

(** While the keys follow one another within the delay, the timer is
    re-armed each time and nothing is sent. *)
Lemma typing_keeps_armed (burst : list (N * string)) (p : Page) :
  just_armed p ->
  Forall (fun key => fst key < SAVE_DELAY_MS) burst ->
  let p' := run (typing burst) p in
  just_armed p' /\ fetched p' = fetched p
  /\ now_ms p' = now_ms p + total_delay burst
  /\ editor_value p' = last (map snd burst) (editor_value p).
Proof.
  revert p. induction burst as [| [gap value] burst IH]; intros p A F.
  - cbn. repeat split; auto. lia.
  - inversion F as [| ? ? G F']; subst. cbn [fst] in G.
    destruct (keyup_rearms gap value p A G) as (A1 & F1 & T1 & V1).
    destruct (IH _ A1 F') as (A2 & F2 & T2 & V2).
    cbn [typing map fst snd]. rewrite run_cons.
    fold (typing burst). cbv zeta.
    repeat split.
    + exact A2.
    + rewrite F2. exact F1.
    + rewrite T2, T1. cbn [total_delay fst]. lia.
    + rewrite V2, V1, last_cons. reflexivity.
Qed.

(** Silence for the delay or longer: the timer fires, once. *)
Lemma idle_fires (idle : N) (p : Page) :
  just_armed p ->
  SAVE_DELAY_MS <= idle ->
  let p' := step (Idle idle) p in
  fetched p'
  = (fetched p
     ++ [(now_ms p + SAVE_DELAY_MS, [("content", editor_value p)])])%list
  /\ armed p' = []
  /\ textContent p' = "Saving and committing changes..."
  /\ now_ms p' = now_ms p + idle.
Proof.
  intros (h & A & T & H0 & X0) L.
  destruct p as [v txt cls st ar nx now fe aw er]. cbn in A, T, H0, X0. subst.
  cbn [step]. unfold elapse, due.
  cbn [armed now_ms filter snd].
  replace (now + SAVE_DELAY_MS <=? now + idle) with true
    by (symmetry; apply N.leb_le; lia).
  cbn. repeat split.
Qed.

(** X15. Debouncing.  From a page with no timer armed, a burst of keys,
    each less than [SAVE_DELAY_MS] after the one before, sends nothing
    while it lasts; followed by silence of [SAVE_DELAY_MS] or more it
    sends exactly one request, [SAVE_DELAY_MS] after the last key, with
    the text the editor held at that key, and leaves no timer armed. *)
Theorem debounce (p : Page) (first : N) (value : string)
        (burst : list (N * string)) (idle : N) :
  armed p = [] ->
  next_handle p <> 0 ->
  Forall (fun key => fst key < SAVE_DELAY_MS) burst ->
  SAVE_DELAY_MS <= idle ->
  let keys := Keyup first value :: typing burst in
  let last_key := now_ms p + first + total_delay burst in
  fetched (run keys p) = fetched p
  /\ fetched (run (keys ++ [Idle idle]) p)
     = (fetched p
        ++ [(last_key + SAVE_DELAY_MS,
             [("content", last (map snd burst) value)])])%list
  /\ armed (run (keys ++ [Idle idle]) p) = [].
Proof.
  intros A X0 F L keys last_key.
  destruct (first_keyup_arms first value p A X0) as (A1 & F1 & T1 & V1).
  destruct (typing_keeps_armed burst _ A1 F) as (A2 & F2 & T2 & V2).
  assert (K : run keys p = run (typing burst) (step (Keyup first value) p))
    by reflexivity.
  destruct (idle_fires idle _ A2 L) as (F3 & A3 & _).
  split; [rewrite K, F2; exact F1 |].
  rewrite run_app, K. cbn [run fold_left].
  split; [| exact A3].
  rewrite F3, F2, F1, T2, T1, V2, V1. reflexivity.
Qed.

Lemma step_bound (e : Event) (p : Page) :
  (length (fetched (step e p)) + length (armed (step e p))
   <= length (fetched p) + length (armed p)
      + (if is_keyup e then 1 else 0))%nat.
Proof.
  destruct e as [after value | after value | after | after outcome];
    cbn [step is_keyup];
    destruct (elapse_effect after p) as (_ & _ & _ & _ & _ & E).
  - set (q := set_value value (elapse after p)).
    assert (Q : (length (fetched q) + length (armed q)
                 = length (fetched p) + length (armed p))%nat) by exact E.
    clearbody q. clear E.
    destruct q as [v txt cls st ar nx now fe aw er].
    unfold on_keyup, truthy, clearTimeout, setTimeout.
    cbn -[N.add N.eqb SAVE_DELAY_MS] in Q |- *.
    assert (C : forall h : N,
               (length (filter (fun timer => negb (fst timer =? h)%N) ar)
                <= length ar)%nat)
      by (intros h; apply filter_length_le).
    destruct st as [h |]; cbn -[N.add N.eqb SAVE_DELAY_MS];
      [destruct (h =? 0); cbn -[N.add N.eqb SAVE_DELAY_MS] |];
      rewrite length_app; cbn [length]; try specialize (C h); lia.
  - cbn. cbn in E. lia.
  - lia.
  - destruct (awaiting (elapse after p)) eqn:W; [lia |].
    destruct outcome as [result |]; cbn;
      [destruct (status result =? "success")%string |]; cbn; cbn in E; lia.
Qed.

(** X16. Every request comes from a key: over any course of events, the
    requests sent and the timers still armed are together no more than
    those at the start plus the keys released. *)
Theorem requests_bounded_by_keys (events : list Event) (p : Page) :
  (length (fetched (run events p)) + length (armed (run events p))
   <= length (fetched p) + length (armed p)
      + length (filter is_keyup events))%nat.
Proof.
  revert p. induction events as [| e events IH]; intros p; [cbn; lia |].
  rewrite run_cons. specialize (IH (step e p)).
  pose proof (step_bound e p) as B.
  cbn [filter]. destruct (is_keyup e); cbn [length]; lia.
Qed.

Lemma step_keeps_single_slot (e : Event) (p : Page) :
  single_slot p -> single_slot (step e p).
Proof.
  intros (X0 & S).
  assert (E : single_slot (elapse (match e with
                                   | Keyup a _ | Edit a _ | Idle a | Settle a _ => a
                                   end) p)).
  { set (ms := match e with
               | Keyup a _ | Edit a _ | Idle a | Settle a _ => a
               end).
    destruct (elapse_effect ms p) as (A & T & X & _).
    split; [rewrite X; exact X0 |].
    rewrite A, T. destruct S as [-> | (h & d & -> & Hs & H0)]; [left; reflexivity |].
    cbn [filter]. destruct (negb (due (now_ms p + ms) (h, d)));
      [right; exists h, d; auto | left; reflexivity]. }
  destruct e as [after value | after value | after | after outcome]; cbn [step].
  - set (q := elapse after p) in *. clearbody q.
    destruct E as (Xq & Sq).
    destruct q as [v txt cls st ar nx now fe aw er]. cbn in Xq, Sq.
    unfold on_keyup, set_value, truthy, clearTimeout, setTimeout, single_slot.
    destruct Sq as [-> | (h & d & -> & Hs & H0)].
    + destruct st as [h |]; cbn -[N.add N.eqb SAVE_DELAY_MS];
        [destruct (h =? 0); cbn -[N.add N.eqb SAVE_DELAY_MS] |];
        (split; [lia | right; eexists; eexists; repeat split; exact Xq]).
    + subst st. cbn -[N.add N.eqb SAVE_DELAY_MS].
      replace (h =? 0) with false by (symmetry; apply N.eqb_neq; exact H0).
      cbn -[N.add N.eqb SAVE_DELAY_MS]. rewrite N.eqb_refl.
      cbn -[N.add N.eqb SAVE_DELAY_MS].
      split; [lia | right; eexists; eexists; repeat split; exact Xq].
  - exact E.
  - exact E.
  - destruct (awaiting (elapse after p)); [exact E |].
    destruct outcome as [result |]; cbn [saveContent_resume];
      [destruct (status result =? "success")%string |]; exact E.
Qed.

(** X17. The timer has a single slot: whatever happens to a loaded page,
    at most one timer is armed, and it is the one [saveTimer] names. *)
Theorem one_timer_at_most (events : list Event) (value : string) :
  let p := run events (loaded value) in
  (length (armed p) <= 1)%nat
  /\ forall h d, In (h, d) (armed p) -> saveTimer p = Some h.
Proof.
  assert (S : single_slot (run events (loaded value))).
  { assert (L : single_slot (loaded value))
      by (split; [discriminate | left; reflexivity]).
    revert L. generalize (loaded value).
    induction events as [| e events IH]; intros p L; [exact L |].
    rewrite run_cons. apply IH, step_keeps_single_slot, L. }
  cbv zeta. destruct S as (_ & [-> | (h & d & -> & Hs & _)]).
  - split; [cbn; lia | intros h d []].
  - split; [cbn; lia |].
    intros h' d' [E | []]. inversion E; subst. exact Hs.
Qed.

(** X18. What the user reads after a save.  When the write failed on the
    server the status line says [Save Error: File write failed: ...] on
    red.  When the write succeeded and [run_git_commit] returned a string,
    be it a commit, a commit failure or a system error, it says [Saved! ]
    and the string on green; that is so whenever the system let [git] be
    launched and what [git] printed was text.  When [run_git_commit]
    raised, the server answers with an error
    page, which the script cannot parse: the line says
    [Network Error: Could not connect to server.] on red and one error is
    logged. *)
Theorem status_after_save {system : System}
        (tool : list string -> World -> CompletedProcess * World)
        (render_template_string : string -> list (string * string) -> string)
        (HTML_TEMPLATE : string)
        (form : Form) (w : World) (p : Page) :
  let reply :=
    fst (handle tool render_template_string HTML_TEMPLATE (POST_save form) w) in
  let p' := saveContent_resume (received reply) p in
  let commit_message :=
    "Autosave: " ++ strftime "%Y-%m-%d %H:%M:%S" (reading w) in
  (forall e w1,
      write_file NOTE_PATH (form_get "content" "" form) (tick w) = (Raise e, w1) ->
      textContent p' = "Save Error: File write failed: " ++ str_exn e
      /\ className p' = RED)
  /\ (forall w1 s w2,
        write_file NOTE_PATH (form_get "content" "" form) (tick w)
        = (Return tt, w1) ->
        run_git_commit tool commit_message w1 = (Return s, w2) ->
        textContent p' = "Saved! " ++ s /\ className p' = GREEN)
  /\ (forall w1,
        write_file NOTE_PATH (form_get "content" "" form) (tick w)
        = (Return tt, w1) ->
        may_launch tool commit_message w1 = true ->
        speaks_text tool commit_message w1 = true ->
        exists s,
          fst (run_git_commit tool commit_message w1) = Return s
          /\ textContent p' = "Saved! " ++ s
          /\ className p' = GREEN)
  /\ (forall w1 e w2,
        write_file NOTE_PATH (form_get "content" "" form) (tick w)
        = (Return tt, w1) ->
        run_git_commit tool commit_message w1 = (Raise e, w2) ->
        reply = InternalServerError e
        /\ textContent p' = "Network Error: Could not connect to server."
        /\ className p' = RED
        /\ errors_logged p' = S (errors_logged p)).
Proof.
  cbv zeta. unfold handle. rewrite save_and_commit_unfold.
  split; [| split; [| split]].
  - intros e w1 W. rewrite W.
    destruct (write_file_raises _ _ _ _ _ W) as [-> _].
    cbn. auto.
  - intros w1 s w2 W R. rewrite W, R. cbn. auto.
  - intros w1 W L T. rewrite W.
    destruct (run_git_commit_returns tool
                ("Autosave: " ++ strftime "%Y-%m-%d %H:%M:%S" (reading w)) w1)
      as (s & w2 & R);
      [apply print_lacks; [reflexivity | apply autosave_print]
      | exact L | exact T |].
    rewrite R. exists s. cbn. auto.
  - intros w1 e w2 W R. rewrite W, R. cbn. auto.
Qed.

End Debounce.

(** ** The further properties on a concrete machine and page *)

Lemma setup_repo_fresh_witness :
  exists w',
    setup_repo Git.git fresh_world = (Return true, w')
    /\ note w' = Some WELCOME
    /\ history w'
       = [mk_commit "Initial setup of the notebook file." (Some WELCOME)]
    /\ console w'
       = (console fresh_world
          ++ match fs fresh_world with
             | None => ["Created directory: notes_repo"]
             | Some _ => []
             end
          ++ ["Initialized Git repository in notes_repo"])%list.
Proof. apply (setup_repo_fresh fresh_world); reflexivity. Defined.

Lemma setup_repo_init_fails_witness :
  let w := set_fs (Some (mk_dir None None)) fresh_world in
  fst (setup_repo failing_tool w) = Return false
  /\ fst (start failing_tool w) = Exited 1
  /\ console (snd (setup_repo failing_tool w))
     = ["Error initializing Git: Command '['git', 'init']' returned non-zero exit status 1."].
Proof.
  destruct (setup_repo_init_fails failing_tool
              (set_fs (Some (mk_dir None None)) fresh_world)
              (set_fs (Some (mk_dir None None)) fresh_world)
              (mk_dir None None) (mk_completed 1 "" "error: permission denied")
              eq_refl eq_refl eq_refl eq_refl ltac:(discriminate))
    as (S & T & M).
  cbv zeta. rewrite S, T. repeat split.
Defined.

Lemma setup_repo_write_fails_witness :
  let w := with_write_fault (WriteFails "[Errno 28] No space left on device")
             fresh_world in
  exists w1,
    setup_repo Git.git w
    = (Raise (OSError "[Errno 28] No space left on device"), w1)
    /\ start Git.git w = (Exited 1, w1)
    /\ console w1
       = ["Created directory: notes_repo";
          "Initialized Git repository in notes_repo"]
    /\ history w1 = []
    /\ note w1 = Some ""
    /\ setup_repo Git.git w1 = (Return true, w1).
Proof.
  destruct (setup_repo_write_fails
              (with_write_fault (WriteFails "[Errno 28] No space left on device")
                 fresh_world)
              (WriteFails "[Errno 28] No space left on device")
              eq_refl eq_refl (fun _ => eq_refl))
    as (w1 & S & T & C & H & N & A).
  exists w1. repeat split; assumption.
Defined.


Lemma setup_repo_keeps_existing_note_witness :
  note (snd (setup_repo Git.git (without_git started_world))) = Some WELCOME
  /\ history (snd (setup_repo Git.git (without_git started_world)))
     = history (without_git started_world).
Proof.
  apply (setup_repo_keeps_existing_note (without_git started_world) _
           (fst (setup_repo Git.git (without_git started_world))) WELCOME).
  - reflexivity.
  - vm_compute. reflexivity.
Defined.

Lemma setup_repo_postcondition_witness :
  bootstrapped (snd (setup_repo Git.git fresh_world)) = true
  /\ setup_repo Git.git (snd (setup_repo Git.git fresh_world))
     = (Return true, snd (setup_repo Git.git fresh_world)).
Proof.
  assert (S : setup_repo Git.git fresh_world
              = (Return true, snd (setup_repo Git.git fresh_world)))
    by (vm_compute; reflexivity).
  destruct (setup_repo_postcondition fresh_world _ S) as (B & _ & T).
  split; [exact B | exact T].
Defined.

Lemma session_keeps_bootstrapped_witness :
  bootstrapped
    (snd (serve Git.git bare_render ""
            [POST_save [("content", "Hello")]; GET_index; POST_save []]
            (with_write_fault (WriteFails "[Errno 28] No space left on device")
               started_world)))
  = true.
Proof.
  apply (session_keeps_bootstrapped bare_render ""). reflexivity.
Defined.

Lemma save_makes_head_match_note_witness :
  let w' := snd (save_and_commit Git.git [("content", "Hello")] started_world) in
  note w' = Some "Hello" /\ last_committed w' = Some "Hello".
Proof.
  apply (save_makes_head_match_note [("content", "Hello")] started_world
           (mk_repo (Some WELCOME)
              [mk_commit "Initial setup of the notebook file." (Some WELCOME)]));
    reflexivity.
Defined.

Lemma save_two_contents_witness :
  exists w1 w2,
    save_and_commit Git.git [("content", "one")] started_world
    = (Return (mk_response "success"
                 "Change committed successfully! (Autosave: 2024-03-07 09:05:07)"),
       w1)
    /\ save_and_commit Git.git [("content", "two")] w1
       = (Return (mk_response "success"
                    "Change committed successfully! (Autosave: 2024-03-07 09:05:08)"),
          w2)
    /\ history w2
       = mk_commit "Autosave: 2024-03-07 09:05:08" (Some "two")
           :: mk_commit "Autosave: 2024-03-07 09:05:07" (Some "one")
           :: history started_world.
Proof.
  apply (save_two_contents started_world
           (mk_repo (Some WELCOME)
              [mk_commit "Initial setup of the notebook file." (Some WELCOME)])
           "one" "two").
  - reflexivity.
  - reflexivity.
  - vm_compute. discriminate.
  - discriminate.
Defined.

Lemma save_with_failing_commit_witness :
  exists w',
    save_and_commit Git.git [("content", "Hello")]
      (with_commit_fault padded_diagnostic started_world)
    = (Return (mk_response "success"
                 "Git Commit Failed: fatal: unable to auto-detect email address"),
       w')
    /\ note w' = Some "Hello"
    /\ history w' = history started_world.
Proof.
  apply (save_with_failing_commit [("content", "Hello")]
           (with_commit_fault padded_diagnostic started_world)
           (mk_repo (Some WELCOME)
              [mk_commit "Initial setup of the notebook file." (Some WELCOME)])
           padded_diagnostic); reflexivity.
Defined.


Lemma save_then_page_witness :
  let w' := snd (save_and_commit Git.git [("content", "Hello")] started_world) in
  index bare_render "" w' = (Return "Hello", w').
Proof.
  assert (F : fs started_world <> None) by (vm_compute; discriminate).
  destruct (save_then_page bare_render "" [("content", "Hello")] started_world
              F eq_refl eq_refl) as [I _].
  exact I.
Defined.

Lemma debounce_witness :
  let keys := [Client.Keyup 500 "H"; Client.Keyup 120 "He"; Client.Keyup 1999 "Hel"] in
  Client.fetched (Client.run keys (Client.loaded "")) = []
  /\ Client.fetched (Client.run (keys ++ [Client.Idle 2000]) (Client.loaded ""))
     = [(4619%N, [("content", "Hel")])]
  /\ Client.armed (Client.run (keys ++ [Client.Idle 2000]) (Client.loaded "")) = [].
Proof.
  apply (debounce (Client.loaded "") 500 "H" [(120%N, "He"); (1999%N, "Hel")] 2000).
  - reflexivity.
  - discriminate.
  - repeat constructor.
  - vm_compute. discriminate.
Defined.

Lemma one_timer_at_most_witness :
  Client.saveTimer
    (Client.run [Client.Keyup 10 "a"; Client.Keyup 10 "ab"] (Client.loaded ""))
  = Some 2%N.
Proof.
  apply (proj2 (one_timer_at_most [Client.Keyup 10 "a"; Client.Keyup 10 "ab"] ""))
    with (d := 2020%N).
  vm_compute. left. reflexivity.
Defined.

Lemma status_after_save_witness :
  let shown (system : System)
            (tool : list string -> World -> CompletedProcess * World)
            (w : World) :=
    Client.textContent
      (Client.saveContent_resume
         (Client.received
            (fst (handle tool bare_render "" (POST_save [("content", "Hello")]) w)))
         (Client.loaded "")) in
  shown willing Git.git (with_commit_fault "fatal: empty ident name" started_world)
  = "Saved! Git Commit Failed: fatal: empty ident name"
  /\ shown willing hooked_git started_world
     = "Network Error: Could not connect to server."
  /\ shown locked_out Git.git started_world
     = "Network Error: Could not connect to server.".
Proof.
  cbv zeta. split; [| split].
  - destruct (status_after_save (system := willing)
                Git.git bare_render "" [("content", "Hello")]
                (with_commit_fault "fatal: empty ident name" started_world)
                (Client.loaded "")) as (_ & _ & S & _).
    assert (T : speaks_text Git.git
                  ("Autosave: "
                   ++ strftime "%Y-%m-%d %H:%M:%S"
                        (reading (with_commit_fault "fatal: empty ident name"
                                    started_world)))
                  (set_note (Some "Hello")
                     (tick (with_commit_fault "fatal: empty ident name"
                              started_world))) = true)
      by (vm_compute; reflexivity).
    destruct (S _ eq_refl eq_refl T) as (s & R & Shown & _).
    rewrite Shown. vm_compute in R. inversion R. reflexivity.
  - destruct (status_after_save (system := willing)
                hooked_git bare_render "" [("content", "Hello")]
                started_world (Client.loaded "")) as (_ & _ & _ & N).
    edestruct N as (_ & Shown & _); [reflexivity | vm_compute; reflexivity |].
    exact Shown.
  - destruct (status_after_save (system := locked_out)
                Git.git bare_render "" [("content", "Hello")]
                started_world (Client.loaded "")) as (_ & _ & _ & N).
    edestruct N as (_ & Shown & _); [reflexivity | vm_compute; reflexivity |].
    exact Shown.
Defined.
